(** * Local service supervisor (src/server/serverManager.ts)

    A shallow embedding of [ServerManager]: the PID-file bookkeeping, the
    health check, the readiness poll and the graceful-then-forceful stop.

    The supervisor talks to three platform capabilities (file system,
    process control, HTTP).  They are modelled by a record [OS] of answers
    indexed by the history of the run so far, so that every behaviour of the
    environment (a process that dies between two calls, a deletion that
    fails, a health endpoint that answers late) is one value of [OS].  The
    program itself is written in a state-and-exception monad over a [World]
    (clock, files, the [serverProcess] field and the chronological list of
    effects performed). *)

From Stdlib Require Import ZArith List String Ascii Bool Lia Decimal DecimalString DecimalPos.
From stdpp Require Import base option gmap strings list.

Local Open Scope Z_scope.

(** ** JavaScript values used by the supervisor *)

Module Js.

(** A JavaScript number as far as this program sees one: [parseInt] yields
    [NaN] or an integer. *)
Inductive Number : Type :=
  | NaN
  | Int (z : Z).

(** Truthiness of a number: [NaN] and [0] are falsy. *)
Definition truthy_num (n : Number) : bool :=
  match n with
  | NaN => false
  | Int z => negb (z =? 0)
  end.

(** Truthiness of a string: the empty string is falsy. *)
Definition truthy_str (s : string) : bool :=
  match s with
  | EmptyString => false
  | String _ _ => true
  end.

(** [a || b] on optional strings ([undefined] is [None]). *)
Definition or_str (a : option string) (b : string) : string :=
  match a with
  | Some s => if truthy_str s then s else b
  | None => b
  end.

(** White space removed by [String.prototype.trim] (the ASCII part of
    WhiteSpace and LineTerminator: TAB, LF, VT, FF, CR, SP). *)
Definition is_space (c : ascii) : bool :=
  let n := Z.of_nat (nat_of_ascii c) in
  ((9 <=? n) && (n <=? 13)) || (n =? 32).

Fixpoint drop_space (cs : list ascii) : list ascii :=
  match cs with
  | c :: cs' => if is_space c then drop_space cs' else cs
  | [] => []
  end.

Definition trim (s : string) : string :=
  string_of_list_ascii
    (rev (drop_space (rev (drop_space (list_ascii_of_string s))))).

(** Value of a character as a digit in the given radix (10 or 16). *)
Definition digit_of (radix : Z) (c : ascii) : option Z :=
  let n := Z.of_nat (nat_of_ascii c) in
  let v :=
    if (48 <=? n) && (n <=? 57) then Some (n - 48)
    else if (97 <=? n) && (n <=? 122) then Some (n - 87)
    else if (65 <=? n) && (n <=? 90) then Some (n - 55)
    else None in
  match v with
  | Some d => if d <? radix then Some d else None
  | None => None
  end.

(** The longest prefix of digits, read left to right. *)
Fixpoint digits_value (radix acc : Z) (cs : list ascii) : Z :=
  match cs with
  | c :: cs' =>
      match digit_of radix c with
      | Some d => digits_value radix (acc * radix + d) cs'
      | None => acc
      end
  | [] => acc
  end.

Definition parse_digits (radix : Z) (cs : list ascii) : Number :=
  match cs with
  | c :: _ =>
      match digit_of radix c with
      | Some _ => Int (digits_value radix 0 cs)
      | None => NaN
      end
  | [] => NaN
  end.

(** [0x] / [0X] prefix selects radix 16 when no radix is given. *)
Definition parse_unsigned (cs : list ascii) : Number :=
  match cs with
  | "0"%char :: "x"%char :: cs' => parse_digits 16 cs'
  | "0"%char :: "X"%char :: cs' => parse_digits 16 cs'
  | _ => parse_digits 10 cs
  end.

Definition negate (n : Number) : Number :=
  match n with
  | NaN => NaN
  | Int z => Int (- z)
  end.

(** [parseInt(s)] with no radix argument (ECMAScript 19.2.5). *)
Definition parseInt (s : string) : Number :=
  match drop_space (list_ascii_of_string s) with
  | "-"%char :: cs => negate (parse_unsigned cs)
  | "+"%char :: cs => parse_unsigned cs
  | cs => parse_unsigned cs
  end.

(** [n.toString()] for an integer: decimal text, [-] for negatives. *)
Definition num_toString (z : Z) : string :=
  NilZero.string_of_int (Z.to_int z).

(** [pid | 0] leaves [pid] unchanged exactly on the 32-bit integers. *)
Definition is_int32 (z : Z) : bool :=
  (- 2147483648 <=? z) && (z <=? 2147483647).

End Js.

Export Js.

(** ** Errors, signals and what the environment answers *)

Inductive Error : Type :=
  | SysError (code : string)       (* errno-style failure of a system call *)
  | TypeError (msg : string)       (* e.g. ERR_INVALID_ARG_TYPE, fetch failed *)
  | AbortError.                    (* the AbortController fired *)

Definition error_text (e : Error) : string :=
  match e with
  | SysError code => "Error: " +:+ code
  | TypeError msg => "TypeError: " +:+ msg
  | AbortError => "AbortError: This operation was aborted"
  end.

(** Second argument of [process.kill]: [0] (existence probe), ['SIGTERM'],
    ['SIGKILL']. *)
Inductive Signal : Type := SIG0 | SIGTERM | SIGKILL.

(** What the network does with one GET: a response with a status after some
    milliseconds, a rejection (refused, DNS, bad URL) after some
    milliseconds, or nothing at all. *)
Inductive NetReply : Type :=
  | Responds (status : Z) (after_ms : Z)
  | Rejects (after_ms : Z)
  | Hangs.

(** [ChildProcess]: only [pid] ([number | undefined]) is read. *)
Record Child : Type := { child_pid : option Z }.

Inductive SpawnResult : Type :=
  | SpawnThrows (e : Error)
  | Spawned (c : Child).

Inductive Stdio : Type := StdioIgnore | StdioPipe.

Record SpawnOptions : Type := {
  so_cwd : string;
  so_env : gmap string string;
  so_detached : bool;
  so_stdio : list Stdio
}.

(** Parsed [package.json]: its [name] when it is a string, and whether
    [scripts?.start] is truthy. *)
Record Manifest : Type := {
  mf_name : option string;
  mf_start : bool
}.

(** Effects, in the order performed.  Each one records the answer it got. *)
Inductive Event : Type :=
  | EvFetch (url : string) (reply : NetReply)
  | EvReadFile (path : string) (res : Error + string)
  | EvWriteFile (path data : string) (err : option Error)
  | EvUnlink (path : string) (err : option Error)
  | EvMkdir (path : string) (err : option Error)
  | EvKill (pid : Z) (sig : Signal) (err : option Error)
  | EvSpawn (cmd : string) (args : list string) (opts : SpawnOptions)
            (res : SpawnResult)
  | EvUnref (c : Child)
  | EvSleep (ms : Z)
  | EvDebug (msg : string)          (* logger.debug *)
  | EvConsole (msg : string).       (* console.log / console.error *)

Definition History := list Event.

(** The environment.  Every answer may depend on everything that happened
    before in the run. *)
Record OS : Type := {
  os_env : gmap string string;                       (* process.env *)
  os_resolve : string -> string;                     (* path.resolve(__dirname, rel) *)
  os_dirname : string -> string;                     (* path.dirname *)
  os_manifest : string -> option Manifest;           (* JSON.parse(readFile(dir/package.json)); None: it throws *)
  os_fetch : History -> string -> NetReply;
  os_kill : History -> Z -> Signal -> option Error;  (* None: signal delivered *)
  os_read_fault : History -> string -> option Error; (* readFile fails although the file is there *)
  os_write_fault : History -> string -> option Error;
  os_unlink_fault : History -> string -> option Error;
  os_mkdir_fault : History -> string -> option Error;
  os_spawn : History -> string -> list string -> SpawnOptions -> SpawnResult;
  os_lag : History -> Z                              (* how late a timer fires *)
}.

(** ** The world and the monad *)

Record World : Type := {
  w_now : Z;                          (* Date.now() *)
  w_files : gmap string string;       (* files written and read by the supervisor *)
  w_serverProcess : option Child;     (* this.serverProcess *)
  w_trace : History
}.

Inductive Outcome (A : Type) : Type :=
  | Ret (a : A)
  | Throw (e : Error)
  | Diverge.                          (* a loop ran out of fuel *)
Arguments Ret {A} a.
Arguments Throw {A} e.
Arguments Diverge {A}.

Definition M (A : Type) : Type := World -> Outcome A * World.

Definition ret {A} (a : A) : M A := fun w => (Ret a, w).

Definition bind {A B} (m : M A) (f : A -> M B) : M B := fun w =>
  match m w with
  | (Ret a, w') => f a w'
  | (Throw e, w') => (Throw e, w')
  | (Diverge, w') => (Diverge, w')
  end.

Declare Scope js_scope.
Delimit Scope js_scope with js.
Bind Scope js_scope with M.
Notation "x ← y ; z" := (bind y (fun x => z))
  (at level 20, y at level 100, z at level 200, only parsing) : js_scope.
Notation "x ;; z" := (bind x (fun _ => z))
  (at level 100, z at level 200, only parsing, right associativity) : js_scope.
Local Open Scope js_scope.

(** [try { body } catch (e) { handler e }] *)
Definition try_catch {A} (body : M A) (handler : Error -> M A) : M A := fun w =>
  match body w with
  | (Throw e, w') => handler e w'
  | r => r
  end.

(** [promise.catch(() => {})] *)
Definition swallow (m : M unit) : M unit := try_catch m (fun _ => ret tt).

Definition emit (e : Event) (w : World) : World :=
  {| w_now := w_now w; w_files := w_files w;
     w_serverProcess := w_serverProcess w; w_trace := w_trace w ++ [e] |}.

Definition advance (ms : Z) (w : World) : World :=
  {| w_now := w_now w + Z.max 0 ms; w_files := w_files w;
     w_serverProcess := w_serverProcess w; w_trace := w_trace w |}.

Definition set_files (fs : gmap string string) (w : World) : World :=
  {| w_now := w_now w; w_files := fs;
     w_serverProcess := w_serverProcess w; w_trace := w_trace w |}.

Definition set_serverProcess (c : Child) (w : World) : World :=
  {| w_now := w_now w; w_files := w_files w;
     w_serverProcess := Some c; w_trace := w_trace w |}.

Definition of_fault (r : option Error) : Outcome unit :=
  match r with
  | None => Ret tt
  | Some e => Throw e
  end.

(** ** Configuration *)

Record ServerConfig : Type := {
  databaseUrl : string;
  redisUrl : string;
  masterSecret : string;
  port : Z;
  serverPath : option string
}.

(** [Partial<ServerConfig>]: a key that is absent is [None]. *)
Record PartialConfig : Type := {
  p_databaseUrl : option string;
  p_redisUrl : option string;
  p_masterSecret : option string;
  p_port : option Z;
  p_serverPath : option string
}.

(** The two paths the constructor derives from [configuration.happyHomeDir]. *)
Record ServerManager : Type := {
  pidFile : string;
  logFile : string
}.

(** [response.ok] *)
Definition response_ok (status : Z) : bool :=
  (200 <=? status) && (status <=? 299).

Section Supervisor.

Variable os : OS.
Variable self : ServerManager.

(** *** Platform primitives *)

Definition Date_now : M Z := fun w => (Ret (w_now w), w).

Definition log_debug (msg : string) : M unit := fun w =>
  (Ret tt, emit (EvDebug msg) w).

Definition console_log (msg : string) : M unit := fun w =>
  (Ret tt, emit (EvConsole msg) w).

Definition diverge {A} : M A := fun w => (Diverge, w).

(** [await new Promise(resolve => setTimeout(resolve, ms))]: the timer fires
    after [ms], or later. *)
Definition sleep (ms : Z) : M unit := fun w =>
  (Ret tt, advance (Z.max 0 ms + Z.max 0 (os_lag os (w_trace w)))
             (emit (EvSleep ms) w)).

Definition fs_readFile (path : string) : M string := fun w =>
  let res :=
    match os_read_fault os (w_trace w) path with
    | Some e => inl e
    | None =>
        match w_files w !! path with
        | Some content => inr content
        | None => inl (SysError "ENOENT")
        end
    end in
  (match res with inl e => Throw e | inr content => Ret content end,
   emit (EvReadFile path res) w).

Definition fs_writeFile (path data : string) : M unit := fun w =>
  let err := os_write_fault os (w_trace w) path in
  let w1 := emit (EvWriteFile path data err) w in
  match err with
  | Some e => (Throw e, w1)
  | None => (Ret tt, set_files (<[path := data]> (w_files w)) w1)
  end.

Definition fs_unlink (path : string) : M unit := fun w =>
  let err :=
    match os_unlink_fault os (w_trace w) path with
    | Some e => Some e
    | None =>
        match w_files w !! path with
        | Some _ => None
        | None => Some (SysError "ENOENT")
        end
    end in
  let w1 := emit (EvUnlink path err) w in
  match err with
  | Some e => (Throw e, w1)
  | None => (Ret tt, set_files (delete path (w_files w)) w1)
  end.

(** [fs.mkdir(path, { recursive: true })]: an existing directory is fine. *)
Definition fs_mkdir (path : string) : M unit := fun w =>
  let err := os_mkdir_fault os (w_trace w) path in
  (of_fault err, emit (EvMkdir path err) w).

(** [process.kill(pid, sig)]: Node rejects a [pid] with [pid != (pid | 0)]
    before any system call; otherwise the system call decides. *)
Definition process_kill (pid : Number) (sig : Signal) : M unit := fun w =>
  match pid with
  | NaN => (Throw (TypeError "ERR_INVALID_ARG_TYPE"), w)
  | Int z =>
      if is_int32 z then
        let err := os_kill os (w_trace w) z sig in
        (of_fault err, emit (EvKill z sig err) w)
      else (Throw (TypeError "ERR_INVALID_ARG_TYPE"), w)
  end.

(** [fetch(url, { method: 'GET', signal })] raced against
    [setTimeout(() => controller.abort(), timeout)]: what settles strictly
    before the timer wins, otherwise the abort does.  Yields the status. *)
Definition fetch_abortable (url : string) (timeout : Z) : M Z := fun w =>
  let reply := os_fetch os (w_trace w) url in
  let w1 := emit (EvFetch url reply) w in
  match reply with
  | Responds status t =>
      if t <? timeout then (Ret status, advance t w1)
      else (Throw AbortError, advance timeout w1)
  | Rejects t =>
      if t <? timeout then (Throw (TypeError "fetch failed"), advance t w1)
      else (Throw AbortError, advance timeout w1)
  | Hangs => (Throw AbortError, advance timeout w1)
  end.

Definition spawn (cmd : string) (args : list string) (opts : SpawnOptions)
  : M Child := fun w =>
  let res := os_spawn os (w_trace w) cmd args opts in
  let w1 := emit (EvSpawn cmd args opts res) w in
  match res with
  | SpawnThrows e => (Throw e, w1)
  | Spawned c => (Ret c, w1)
  end.

(** [this.serverProcess = c] *)
Definition assign_serverProcess (c : Child) : M unit := fun w =>
  (Ret tt, set_serverProcess c w).

(** [this.serverProcess.unref()] *)
Definition serverProcess_unref : M unit := fun w =>
  match w_serverProcess w with
  | Some c => (Ret tt, emit (EvUnref c) w)
  | None => (Throw (TypeError "Cannot read properties of null"), w)
  end.

(** *** ServerManager *)

(** Check if server is running and healthy. *)
Definition isServerRunning (serverUrl : option string) : M bool :=
  let serverUrl := default "http://localhost:3005"%string serverUrl in
  try_catch
    (status ← fetch_abortable (serverUrl +:+ "/") 3000;
     ret (response_ok status))
    (fun error =>
       log_debug ("Server health check failed: " +:+ error_text error);;
       ret false).

(** Check if a process ID is running. *)
Definition isProcessRunning (pid : Number) : M bool :=
  try_catch
    (process_kill pid SIG0;; ret true)
    (fun _ => ret false).

(** Get the process ID of running server from PID file. *)
Definition getServerPid : M (option Number) :=
  try_catch
    (pidStr ← fs_readFile (pidFile self);
     let pid := parseInt (trim pidStr) in
     running ← isProcessRunning pid;
     if running then ret (Some pid)
     else
       swallow (fs_unlink (pidFile self));;
       ret None)
    (fun _ => ret None).

Definition truthy_opt_str (o : option string) : option string :=
  match o with
  | Some s => if truthy_str s then Some s else None
  | None => None
  end.

(** The four candidates of [findServerPath], after [.filter(Boolean)]. *)
Definition possiblePaths : list string :=
  omap truthy_opt_str
    [ Some (os_resolve os "../../../happy-server");
      Some (os_resolve os "../../../");
      Some (os_resolve os "../../happy-server");
      os_env os !! "HAPPY_SERVER_PATH"%string ].

Definition accepts_manifest (m : Manifest) : bool :=
  match mf_name m with
  | Some n => if String.eqb n "happy-server" then true else mf_start m
  | None => mf_start m
  end.

Fixpoint findServerPath_from (paths : list string) : M (option string) :=
  match paths with
  | [] => ret None
  | serverPath :: rest =>
      match os_manifest os serverPath with
      | Some packageJson =>
          if accepts_manifest packageJson then
            log_debug ("Found server at: " +:+ serverPath);;
            ret (Some serverPath)
          else findServerPath_from rest
      | None => findServerPath_from rest
      end
  end.

(** Find the happy-server directory relative to CLI. *)
Definition findServerPath : M (option string) :=
  findServerPath_from possiblePaths.

(** The environment handed to the child (lines 136-143). *)
Definition child_env (config : ServerConfig) : gmap string string :=
  <["NODE_ENV"%string := or_str (os_env os !! "NODE_ENV"%string) "development"]>
  (<["PORT"%string := num_toString (port config)]>
  (<["HANDY_MASTER_SECRET"%string := masterSecret config]>
  (<["REDIS_URL"%string := redisUrl config]>
  (<["DATABASE_URL"%string := databaseUrl config]>
  (os_env os))))).

Definition spawn_options (config : ServerConfig) (cwd : string) : SpawnOptions :=
  {| so_cwd := cwd;
     so_env := child_env config;
     so_detached := true;
     so_stdio := [StdioIgnore; StdioPipe; StdioPipe] |}.

(** One round of the [while] of [waitForServerReady]; [fuel] bounds the
    number of rounds. *)
Fixpoint waitLoop (fuel : nat) (serverUrl : string) (startTime timeout : Z)
  : M bool :=
  match fuel with
  | O => diverge
  | S fuel' =>
      now ← Date_now;
      if now - startTime <? timeout then
        running ← isServerRunning (Some serverUrl);
        if running then ret true
        else
          sleep 500;;
          waitLoop fuel' serverUrl startTime timeout
      else ret false
  end.

Definition poll_fuel (timeout : Z) : nat := Z.to_nat (timeout / 500) + 2.

(** Wait for server to be ready by polling health endpoint. *)
Definition waitForServerReady (serverUrl : string) (timeout : option Z) : M bool :=
  let timeout := default 15000 timeout in
  startTime ← Date_now;
  waitLoop (poll_fuel timeout) serverUrl startTime timeout.

Definition pid_text (n : Number) : string :=
  match n with
  | NaN => "NaN"
  | Int z => num_toString z
  end.

(** Stop the server daemon. *)
Definition stopServer : M bool :=
  try_catch
    (pid ← getServerPid;
     match pid with
     | Some n =>
         if truthy_num n then
           log_debug ("Stopping server with PID: " +:+ pid_text n);;
           process_kill n SIGTERM;;
           sleep 2000;;
           running ← isProcessRunning n;
           if running then
             log_debug "Force killing server";;
             process_kill n SIGKILL
           else ret tt
         else ret tt
     | None => ret tt
     end;;
     swallow (fs_unlink (pidFile self));;
     ret true)
    (fun error =>
       log_debug ("Error stopping server: " +:+ error_text error);;
       ret false).

(** [if (this.serverProcess.pid)]: [undefined] and [0] are falsy. *)
Definition truthy_pid (c : Child) : option Z :=
  match child_pid c with
  | Some p => if p =? 0 then None else Some p
  | None => None
  end.

(** Start the server daemon in background.  The [data] listeners attached
    to the child's pipes only append to the log file, swallowing every
    error; they take no part in what [startServer] returns or in the PID
    file and are left out. *)
Definition startServer (config : ServerConfig) : M bool :=
  try_catch
    (log_debug "Starting Happy server...";;
     serverPath ←
       match truthy_opt_str (serverPath config) with
       | Some p => ret (Some p)
       | None => findServerPath
       end;
     match truthy_opt_str serverPath with
     | None =>
         log_debug "Could not find happy-server directory";;
         ret false
     | Some serverPath =>
         fs_mkdir (os_dirname os (logFile self));;
         child ← spawn "yarn" ["start"%string] (spawn_options config serverPath);
         assign_serverProcess child;;
         match truthy_pid child with
         | Some pid =>
             fs_writeFile (pidFile self) (num_toString pid);;
             log_debug ("Server started with PID: " +:+ num_toString pid)
         | None => ret tt
         end;;
         ready ← waitForServerReady
                   ("http://localhost:" +:+ num_toString (port config)) None;
         if ready then
           log_debug "Server is ready and healthy";;
           serverProcess_unref;;
           ret true
         else
           log_debug "Server failed to start properly";;
           stopServer;;
           ret false
     end)
    (fun error =>
       log_debug ("Failed to start server: " +:+ error_text error);;
       ret false).

(** [config?.port || 3005] *)
Definition ensure_port (config : option PartialConfig) : Z :=
  match config with
  | Some c =>
      match p_port c with
      | Some p => if p =? 0 then 3005 else p
      | None => 3005
      end
  | None => 3005
  end.

(** The development defaults with the caller's keys spread over them. *)
Definition defaultConfig (config : option PartialConfig) : ServerConfig :=
  let c := default {| p_databaseUrl := None; p_redisUrl := None;
                      p_masterSecret := None; p_port := None;
                      p_serverPath := None |} config in
  {| databaseUrl :=
       default ("postgresql://" +:+ or_str (os_env os !! "USER"%string) "postgres"
                +:+ "@localhost:5432/happy?schema=public") (p_databaseUrl c);
     redisUrl := default "redis://localhost:6380"%string (p_redisUrl c);
     masterSecret :=
       default "development-secret-key-please-change-in-production"%string
               (p_masterSecret c);
     port := default 3005 (p_port c);
     serverPath := p_serverPath c |}.

(** Ensure server is running, start if needed.  (The emoji that prefix the
    three console messages are left out of the message texts.) *)
Definition ensureServerRunning (config : option PartialConfig) : M bool :=
  let serverUrl := "http://localhost:" +:+ num_toString (ensure_port config) in
  running ← isServerRunning (Some serverUrl);
  if running then
    log_debug "Server is already running and healthy";;
    ret true
  else
    console_log "Starting Happy server...";;
    started ← startServer (defaultConfig config);
    if started then
      console_log "Happy server started successfully";;
      ret true
    else
      console_log "Failed to start Happy server";;
      ret false.

End Supervisor.

(** The two halves of the [try] block of [startServer], named so that the
    state between them can be spoken of: [launch] is the text up to and
    including "Save PID" (it yields no child when no directory was found),
    [settle] is the text from "Wait for server to be ready" on. *)
Definition launch (os : OS) (self : ServerManager) (config : ServerConfig)
  : M (option Child) :=
  log_debug "Starting Happy server...";;
  serverPath ←
    match truthy_opt_str (serverPath config) with
    | Some p => ret (Some p)
    | None => findServerPath os
    end;
  match truthy_opt_str serverPath with
  | None =>
      log_debug "Could not find happy-server directory";;
      ret None
  | Some serverPath =>
      fs_mkdir os (os_dirname os (logFile self));;
      child ← spawn os "yarn" ["start"%string] (spawn_options os config serverPath);
      assign_serverProcess child;;
      match truthy_pid child with
      | Some pid =>
          fs_writeFile os (pidFile self) (num_toString pid);;
          log_debug ("Server started with PID: " +:+ num_toString pid)
      | None => ret tt
      end;;
      ret (Some child)
  end.

Definition health_url (config : ServerConfig) : string :=
  "http://localhost:" +:+ num_toString (port config).

Definition settle (os : OS) (self : ServerManager) (config : ServerConfig)
  : M bool :=
  ready ← waitForServerReady os (health_url config) None;
  if ready then
    log_debug "Server is ready and healthy";;
    serverProcess_unref;;
    ret true
  else
    log_debug "Server failed to start properly";;
    stopServer os self;;
    ret false.

Definition start_failed (error : Error) : M bool :=
  log_debug ("Failed to start server: " +:+ error_text error);;
  ret false.

(** ** Observing a run *)

Definition run_result {A} (m : M A) (w : World) : Outcome A := (m w).1.
Definition run_state {A} (m : M A) (w : World) : World := (m w).2.

(** The effects a computation performs when started in [w]. *)
Definition run_events {A} (m : M A) (w : World) : History :=
  drop (length (w_trace w)) (w_trace (run_state m w)).

Inductive Kind : Type :=
  | KFetch | KRead | KWrite | KUnlink | KMkdir | KKill
  | KSpawn | KUnref | KSleep | KDebug | KConsole.

#[global] Instance Kind_eq_dec : EqDecision Kind.
Proof. solve_decision. Defined.

Definition kind (e : Event) : Kind :=
  match e with
  | EvFetch _ _ => KFetch
  | EvReadFile _ _ => KRead
  | EvWriteFile _ _ _ => KWrite
  | EvUnlink _ _ => KUnlink
  | EvMkdir _ _ => KMkdir
  | EvKill _ _ _ => KKill
  | EvSpawn _ _ _ _ => KSpawn
  | EvUnref _ => KUnref
  | EvSleep _ => KSleep
  | EvDebug _ => KDebug
  | EvConsole _ => KConsole
  end.

(** Effects that change the file system: a write or a deletion that
    succeeded. *)
Definition mutates (e : Event) : bool :=
  match e with
  | EvWriteFile _ _ None => true
  | EvUnlink _ None => true
  | _ => false
  end.

(** [w'] is [w] after some effects that all satisfy [P]; the clock did not
    go back, and the files are the same unless one of the effects changed
    them. *)
Definition extends (P : Event -> Prop) (w w' : World) : Prop :=
  exists evs,
    w_trace w' = w_trace w ++ evs /\
    Forall P evs /\
    w_now w <= w_now w' /\
    (Forall (fun e => mutates e = false) evs -> w_files w' = w_files w).

Definition emits {A} (P : Event -> Prop) (m : M A) : Prop :=
  forall w, extends P w (run_state m w).

(** Effects of one of the kinds [ks]. *)
Definition of_kinds (ks : list Kind) (e : Event) : Prop := kind e ∈ ks.

(** A signal that terminates: ['SIGTERM'] or ['SIGKILL']. *)
Definition terminating (sig : Signal) : bool :=
  match sig with
  | SIG0 => false
  | SIGTERM | SIGKILL => true
  end.

(** The health check counts a reply as healthy when a response with a
    success status settles before the 3000 ms timer. *)
Definition healthy (r : NetReply) : bool :=
  match r with
  | Responds status t => (t <? 3000) && response_ok status
  | Rejects _ => false
  | Hangs => false
  end.

(** The time one health check takes. *)
Definition reply_time (r : NetReply) : Z :=
  match r with
  | Responds _ t => Z.max 0 (Z.min t 3000)
  | Rejects t => Z.max 0 (Z.min t 3000)
  | Hangs => 3000
  end.

(** The kinds of effects of [settle]. *)
Definition settle_kinds : list Kind :=
  [KFetch; KSleep; KDebug; KUnref; KRead; KKill; KUnlink].

(** [config.serverPath || await this.findServerPath()], the first step of
    [startServer] and of [launch]. *)
Definition resolve_path (os : OS) (config : ServerConfig) : M (option string) :=
  match truthy_opt_str (serverPath config) with
  | Some p => ret (Some p)
  | None => findServerPath os
  end.

(** The characters of a decimal numeral. *)
Definition uint_chars (d : uint) : list ascii :=
  list_ascii_of_string (NilEmpty.string_of_uint d).

(** The variables [startServer] sets in the child's environment. *)
Definition overlaid : list string :=
  ["DATABASE_URL"; "REDIS_URL"; "HANDY_MASTER_SECRET"; "PORT"; "NODE_ENV"]%string.

(** Every [spawn] is [yarn start], detached, with piped output and the
    environment of [child_env]. *)
Definition spawns_with (os : OS) (config : ServerConfig) (e : Event) : Prop :=
  match e with
  | EvSpawn cmd args opts _ =>
      cmd = "yarn"%string /\ args = ["start"%string] /\
      so_env opts = child_env os config /\
      so_detached opts = true /\
      so_stdio opts = [StdioIgnore; StdioPipe; StdioPipe]
  | _ => True
  end.

(** [b] comes right after [a] somewhere in the history. *)
Fixpoint followed_by (a b : Event) (l : History) : Prop :=
  match l with
  | x :: l' =>
      match l' with
      | y :: _ => (x = a /\ y = b) \/ followed_by a b l'
      | [] => False
      end
  | [] => False
  end.

(** The world once a [sleep] has returned. *)
Definition after_sleep (os : OS) (ms : Z) (w : World) : World :=
  run_state (sleep os ms) w.

(** What [launch] does, case by case: the result, the world it leaves and
    the effects, given the effects [pre] up to and including [mkdir]. *)
Inductive LaunchRun (self : ServerManager) (w : World)
  : Outcome (option Child) -> World -> History -> Prop :=
  | Launch_no_path w' pre :
      Forall (of_kinds [KDebug]) pre ->
      w_files w' = w_files w ->
      LaunchRun self w (Ret None) w' pre
  | Launch_mkdir_fails w' pre e :
      Forall (of_kinds [KDebug; KMkdir]) pre ->
      w_files w' = w_files w ->
      LaunchRun self w (Throw e) w' pre
  | Launch_spawn_throws w' pre cmd args opts e :
      Forall (of_kinds [KDebug; KMkdir]) pre ->
      w_files w' = w_files w ->
      LaunchRun self w (Throw e) w'
        (pre ++ [EvSpawn cmd args opts (SpawnThrows e)])
  | Launch_no_pid w' pre cmd args opts child :
      Forall (of_kinds [KDebug; KMkdir]) pre ->
      truthy_pid child = None ->
      w_files w' = w_files w ->
      w_serverProcess w' = Some child ->
      LaunchRun self w (Ret (Some child)) w'
        (pre ++ [EvSpawn cmd args opts (Spawned child)])
  | Launch_write_fails w' pre cmd args opts child pid e :
      Forall (of_kinds [KDebug; KMkdir]) pre ->
      truthy_pid child = Some pid ->
      w_files w' = w_files w ->
      LaunchRun self w (Throw e) w'
        (pre ++ [EvSpawn cmd args opts (Spawned child);
                 EvWriteFile (pidFile self) (num_toString pid) (Some e)])
  | Launch_pid_saved w' pre cmd args opts child pid :
      Forall (of_kinds [KDebug; KMkdir]) pre ->
      truthy_pid child = Some pid ->
      w_files w' = <[pidFile self := num_toString pid]> (w_files w) ->
      w_serverProcess w' = Some child ->
      LaunchRun self w (Ret (Some child)) w'
        (pre ++ [EvSpawn cmd args opts (Spawned child);
                 EvWriteFile (pidFile self) (num_toString pid) None;
                 EvDebug ("Server started with PID: " +:+ num_toString pid)]).

(** ** Concrete environments *)

Module Ex.

Definition self : ServerManager :=
  {| pidFile := "/home/u/.happy/server.pid";
     logFile := "/home/u/.happy/logs/server.log" |}.

Definition config : ServerConfig :=
  {| databaseUrl := "postgresql://u@localhost:5432/happy?schema=public";
     redisUrl := "redis://localhost:6380";
     masterSecret := "s3cret";
     port := 3005;
     serverPath := Some "/opt/happy-server"%string |}.

(** An environment given by the parent's variables, the network's answer,
    the answers to the three signals, the fault of a deletion and what
    [spawn] yields; nothing else ever fails and timers are punctual. *)
Definition os_of (env : gmap string string) (reply : NetReply)
    (probe term kill9 unlink : option Error) (child : SpawnResult) : OS :=
  {| os_env := env;
     os_resolve := fun rel => "/opt/happy-cli/dist/" +:+ rel;
     os_dirname := fun _ => "/home/u/.happy/logs"%string;
     os_manifest := fun _ => None;
     os_fetch := fun _ _ => reply;
     os_kill := fun _ _ sig =>
       match sig with
       | SIG0 => probe
       | SIGTERM => term
       | SIGKILL => kill9
       end;
     os_read_fault := fun _ _ => None;
     os_write_fault := fun _ _ => None;
     os_unlink_fault := fun _ _ => unlink;
     os_mkdir_fault := fun _ _ => None;
     os_spawn := fun _ _ _ _ => child;
     os_lag := fun _ => 0 |}.

Definition ESRCH : Error := SysError "ESRCH".
Definition EPERM : Error := SysError "EPERM".
Definition EACCES : Error := SysError "EACCES".

Definition child4242 : Child := {| child_pid := Some 4242 |}.

(** No file at all. *)
Definition fresh : World :=
  {| w_now := 0; w_files := ∅; w_serverProcess := None; w_trace := [] |}.

(** The PID file records process 4242. *)
Definition recorded : World :=
  {| w_now := 0; w_files := {[ pidFile self := "4242"%string ]};
     w_serverProcess := None; w_trace := [] |}.


(** The recorded process is gone. *)
Definition os_dead : OS :=
  os_of ∅ (Rejects 5) (Some ESRCH) (Some ESRCH) (Some ESRCH) None (Spawned child4242).

(** The recorded process is there, accepts every signal and stays alive. *)
Definition os_stubborn : OS :=
  os_of ∅ (Rejects 5) None None None None (Spawned child4242).

(** The recorded process is there but the graceful signal is refused. *)
Definition os_term_refused : OS :=
  os_of ∅ (Rejects 5) None (Some EPERM) None None (Spawned child4242).

(** The recorded process vanishes just before the forceful signal. *)
Definition os_kill_raises : OS :=
  os_of ∅ (Rejects 5) None None (Some ESRCH) None (Spawned child4242).

(** Signals go through but the PID file cannot be deleted. *)
Definition os_undeletable : OS :=
  os_of ∅ (Rejects 5) None None None (Some EACCES) (Spawned child4242).

(** A healthy service answers at once. *)
Definition os_healthy : OS :=
  os_of ∅ (Responds 200 5) None None None None (Spawned child4242).


(** The parent has [NODE_ENV] set, to the empty string. *)
Definition os_empty_node_env : OS :=
  os_of {[ "NODE_ENV"%string := ""%string ]} (Rejects 5)
        None None None None (Spawned child4242).

End Ex.

Definition accepted_dir (os : OS) (dir : string) : bool :=
  match os_manifest os dir with
  | Some m => accepts_manifest m
  | None => false
  end.

Definition replies (evs : History) : list NetReply :=
  omap (fun e => match e with EvFetch _ r => Some r | _ => None end) evs.
(** What one answered poll looks like. *)
Record PollRun (url : string) (start timeout : Z) (w : World) (b : bool)
    (w' : World) (evs : History) : Prop := {
  poll_trace : w_trace w' = w_trace w ++ evs;
  poll_urls :
    Forall (fun e => match e with EvFetch u _ => u = (url +:+ "/")%string | _ => True end) evs;
  poll_true :
    b = true ->
    exists pre r0 u,
      replies evs = pre ++ [r0] /\ Forall (fun r => healthy r = false) pre /\
      healthy r0 = true /\ last evs = Some (EvFetch u r0);
  poll_false :
    b = false ->
    Forall (fun r => healthy r = false) (replies evs) /\ start + timeout <= w_now w';
  poll_count :
    500 * Z.of_nat (length (replies evs)) <= Z.max 0 (start + timeout - w_now w + 499);
  poll_clock : w_now w <= w_now w';
  poll_files : w_files w' = w_files w;
  poll_process : w_serverProcess w' = w_serverProcess w
}.

(** The directory [startServer] settles on: the configured one when it is
    given (and not empty), else the first accepted candidate. *)
Definition resolved_dir (os : OS) (config : ServerConfig) : option string :=
  match truthy_opt_str (serverPath config) with
  | Some p => Some p
  | None => List.find (accepted_dir os) (possiblePaths os)
  end.

(** The log line of a successful discovery, when discovery takes place. *)
Definition found_log (os : OS) (config : ServerConfig) : History :=
  match truthy_opt_str (serverPath config) with
  | Some _ => []
  | None =>
      match List.find (accepted_dir os) (possiblePaths os) with
      | Some p => [EvDebug ("Found server at: " +:+ p)]
      | None => []
      end
  end.

Definition extend_trace (evs : History) (w : World) : World :=
  {| w_now := w_now w; w_files := w_files w;
     w_serverProcess := w_serverProcess w; w_trace := w_trace w ++ evs |}.
(** How many effects of a kind a history has. *)
Definition count_kind (k : Kind) (evs : list Event) : nat :=
  length (filter (fun e => kind e = k) evs).
(** ** More concrete environments *)

Module Ex2.

(** No directory is configured (and, in the environments of [Ex], no
    candidate has a manifest). *)
Definition config_nopath : ServerConfig :=
  {| databaseUrl := "postgresql://u@localhost:5432/happy?schema=public";
     redisUrl := "redis://localhost:6380";
     masterSecret := "s3cret";
     port := 3005;
     serverPath := None |}.



End Ex2.

(** A termination signal in the history. *)
Definition is_termination (e : Event) : bool :=
  match e with
  | EvKill _ sig _ => terminating sig
  | _ => false
  end.
(** Would the existence probe of [pid] succeed after the history [h]? *)
Definition probe_ok (os : OS) (h : History) (pid : Number) : bool :=
  match pid with
  | NaN => false
  | Int z =>
      is_int32 z &&
      match os_kill os h z SIG0 with
      | None => true
      | Some _ => false
      end
  end.

Module Ex3.

(** The recorded process is there and exits on the first termination
    signal: the probe succeeds until one is in the history. *)
Definition os_obedient : OS :=
  {| os_env := ∅;
     os_resolve := fun rel => "/opt/happy-cli/dist/" +:+ rel;
     os_dirname := fun _ => "/home/u/.happy/logs"%string;
     os_manifest := fun _ => None;
     os_fetch := fun _ _ => Rejects 5;
     os_kill := fun h _ sig =>
       match sig with
       | SIG0 => if existsb is_termination h then Some Ex.ESRCH else None
       | _ => None
       end;
     os_read_fault := fun _ _ => None;
     os_write_fault := fun _ _ => None;
     os_unlink_fault := fun _ _ => None;
     os_mkdir_fault := fun _ _ => None;
     os_spawn := fun _ _ _ _ => Spawned Ex.child4242;
     os_lag := fun _ => 0 |}.

Definition ENOENT : Error := SysError "ENOENT".

(** White space around the recorded number, as an editor leaves it. *)
Definition padded_text : string :=
  string_of_list_ascii
    ([" "%char] ++ list_ascii_of_string (num_toString 4242) ++ ["010"%char]).

Definition padded : World :=
  {| w_now := 0; w_files := {[ pidFile Ex.self := padded_text ]};
     w_serverProcess := None; w_trace := [] |}.

End Ex3.

(** Where an effect goes: a request to one of [urls], a file operation on
    the PID file, the creation of the log directory, the start of
    [yarn start]; signals and the rest are not constrained. *)
Definition addressed (os : OS) (self : ServerManager) (urls : list string)
    (e : Event) : Prop :=
  match e with
  | EvFetch url _ => In url urls
  | EvReadFile f _ => f = pidFile self
  | EvWriteFile f _ _ => f = pidFile self
  | EvUnlink f _ => f = pidFile self
  | EvMkdir d _ => d = os_dirname os (logFile self)
  | EvSpawn cmd args _ _ => cmd = "yarn"%string /\ args = ["start"%string]
  | _ => True
  end.

(** [serverUrl] of [ensureServerRunning] (line 242). *)
Definition precheck_url (config : option PartialConfig) : string :=
  "http://localhost:" +:+ num_toString (ensure_port config).










Module Ex4.

(** The caller names the directory and nothing else. *)
Definition only_path : option PartialConfig :=
  Some {| p_databaseUrl := None; p_redisUrl := None; p_masterSecret := None;
          p_port := None; p_serverPath := Some "/opt/happy-server"%string |}.

(** No service answers, and the parent's [USER] is the empty string. *)
Definition os_anonymous : OS :=
  Ex.os_of {[ "USER"%string := ""%string ]} (Rejects 5)
           None None None None (Spawned Ex.child4242).

End Ex4.



(** * Properties *)

(** ** Traces *)

Lemma extends_refl P w : extends P w w.
Proof.
  exists []. rewrite app_nil_r.
  split; [reflexivity |]. split; [constructor |]. split; [lia | auto].
Qed.

Lemma extends_trans P w1 w2 w3 :
  extends P w1 w2 -> extends P w2 w3 -> extends P w1 w3.
Proof.
  intros (e1 & T1 & F1 & N1 & K1) (e2 & T2 & F2 & N2 & K2).
  exists (e1 ++ e2). rewrite T2, T1, app_assoc.
  split; [reflexivity |]. split; [apply Forall_app; auto |].
  split; [lia |].
  intros [Q1 Q2]%Forall_app. rewrite K2, K1; auto.
Qed.

Lemma extends_mono (P Q : Event -> Prop) w w' :
  (forall e, P e -> Q e) -> extends P w w' -> extends Q w w'.
Proof.
  intros Hs (evs & T & F & N & K). exists evs.
  split; [exact T |]. split; [| auto].
  eapply Forall_impl; [exact F | exact Hs].
Qed.

Lemma run_events_eq {A} (m : M A) w evs :
  w_trace (run_state m w) = w_trace w ++ evs -> run_events m w = evs.
Proof.
  intros T. unfold run_events. rewrite T. apply drop_app_length.
Qed.

Lemma extends_run_events {A} P (m : M A) w :
  extends P w (run_state m w) ->
  w_trace (run_state m w) = w_trace w ++ run_events m w /\
  Forall P (run_events m w).
Proof.
  intros (evs & T & F & _). rewrite (run_events_eq m w evs T). auto.
Qed.

Lemma emits_ret {A} P (a : A) : emits P (ret a).
Proof. intros w. apply extends_refl. Qed.

Lemma emits_bind {A B} P (m : M A) (f : A -> M B) :
  emits P m -> (forall a, emits P (f a)) -> emits P (bind m f).
Proof.
  intros Hm Hf w. specialize (Hm w). unfold run_state, bind in *.
  destruct (m w) as [[a|e|] w1]; cbn in *; auto.
  eapply extends_trans; [exact Hm | apply (Hf a w1)].
Qed.

Lemma emits_try_catch {A} P (m : M A) (h : Error -> M A) :
  emits P m -> (forall e, emits P (h e)) -> emits P (try_catch m h).
Proof.
  intros Hm Hh w. specialize (Hm w). unfold run_state, try_catch in *.
  destruct (m w) as [[a|e|] w1]; cbn in *; auto.
  eapply extends_trans; [exact Hm | apply (Hh e w1)].
Qed.

Lemma emits_mono {A} (P Q : Event -> Prop) (m : M A) :
  (forall e, P e -> Q e) -> emits P m -> emits Q m.
Proof. intros Hs Hm w. eapply extends_mono; eauto. Qed.

(** Side conditions [P e] on one event. *)
Ltac event_ok :=
  intros;
  first [ assumption
        | solve [auto]
        | exact I
        | reflexivity
        | unfold of_kinds; cbn; apply (bool_decide_unpack _); vm_compute; reflexivity
        | cbn; first [exact I | reflexivity | discriminate | congruence] ].

(** Case analysis on the innermost answer that the goal still waits for. *)
Ltac step :=
  match goal with
  | |- context [match ?x with _ => _ end] =>
      lazymatch x with
      | context [match _ with _ => _ end] => fail
      | _ => first [ match goal with H : x = _ |- _ => rewrite H end
                   | destruct x eqn:? ]
      end
  end.

Ltac no_mutation H :=
  repeat match type of H with
         | Forall _ (_ :: _) =>
             let H1 := fresh in
             apply Forall_cons_1 in H; destruct H as [H1 H];
             try discriminate H1
         end.

Ltac extends_now :=
  first
    [ apply extends_refl
    | eexists; cbn;
      split; [rewrite <- ?app_assoc; cbn; reflexivity |];
      split; [repeat constructor; event_ok |];
      split; [lia |];
      let H := fresh in intros H; first [reflexivity | no_mutation H] ].

(** Inclusion of one set of kinds in another. *)
Ltac sub_kinds :=
  let e := fresh "e" in
  intros e; destruct e; unfold of_kinds; cbn;
  let Hk := fresh "Hk" in
  intros Hk;
  first [ apply (bool_decide_unpack _); vm_compute; reflexivity
        | exfalso; revert Hk; apply (bool_decide_unpack _); vm_compute; reflexivity ].

Section Primitives.

Variable os : OS.
Variable P : Event -> Prop.

Lemma emits_Date_now : emits P Date_now.
Proof. intros w. apply extends_refl. Qed.

Lemma emits_diverge {A} : emits P (@diverge A).
Proof. intros w. apply extends_refl. Qed.

Lemma emits_log_debug msg : P (EvDebug msg) -> emits P (log_debug msg).
Proof. intros H w. unfold run_state, log_debug. extends_now. Qed.

Lemma emits_console_log msg : P (EvConsole msg) -> emits P (console_log msg).
Proof. intros H w. unfold run_state, console_log. extends_now. Qed.

Lemma emits_sleep ms : P (EvSleep ms) -> emits P (sleep os ms).
Proof. intros H w. unfold run_state, sleep. extends_now. Qed.

Lemma emits_fs_readFile p :
  (forall res, P (EvReadFile p res)) -> emits P (fs_readFile os p).
Proof. intros H w. unfold run_state, fs_readFile. extends_now. Qed.

Lemma emits_fs_writeFile p d :
  (forall err, P (EvWriteFile p d err)) -> emits P (fs_writeFile os p d).
Proof.
  intros H w. unfold run_state, fs_writeFile. cbn. step; extends_now.
Qed.

Lemma emits_fs_unlink p :
  (forall err, P (EvUnlink p err)) -> emits P (fs_unlink os p).
Proof.
  intros H w. unfold run_state, fs_unlink. cbn.
  repeat step; try discriminate; extends_now.
Qed.

Lemma emits_fs_mkdir p :
  (forall err, P (EvMkdir p err)) -> emits P (fs_mkdir os p).
Proof. intros H w. unfold run_state, fs_mkdir. extends_now. Qed.

Lemma emits_process_kill pid sig :
  (forall z err, pid = Int z -> P (EvKill z sig err)) ->
  emits P (process_kill os pid sig).
Proof.
  intros H w. unfold run_state, process_kill. repeat step; extends_now.
Qed.

Lemma emits_fetch_abortable url t :
  (forall reply, P (EvFetch url reply)) -> emits P (fetch_abortable os url t).
Proof.
  intros H w. unfold run_state, fetch_abortable. cbn. repeat step; extends_now.
Qed.

Lemma emits_spawn cmd args opts :
  (forall res, P (EvSpawn cmd args opts res)) -> emits P (spawn os cmd args opts).
Proof.
  intros H w. unfold run_state, spawn. cbn. step; extends_now.
Qed.

Lemma emits_assign_serverProcess c : emits P (assign_serverProcess c).
Proof.
  intros w. unfold run_state, assign_serverProcess. cbn.
  exists []. cbn. rewrite app_nil_r.
  split; [reflexivity |]. split; [constructor |]. split; [lia | auto].
Qed.

Lemma emits_serverProcess_unref :
  (forall c, P (EvUnref c)) -> emits P serverProcess_unref.
Proof.
  intros H w. unfold run_state, serverProcess_unref. step; extends_now.
Qed.

End Primitives.

(** Proves [emits P m] for a computation built from the primitives. *)
Ltac emits_tac :=
  repeat first
    [ apply emits_ret
    | apply emits_bind; [| intros ?]
    | apply emits_try_catch; [| intros ?]
    | apply emits_Date_now
    | apply emits_diverge
    | apply emits_log_debug; event_ok
    | apply emits_console_log; event_ok
    | apply emits_sleep; event_ok
    | apply emits_fs_readFile; event_ok
    | apply emits_fs_writeFile; event_ok
    | apply emits_fs_unlink; event_ok
    | apply emits_fs_mkdir; event_ok
    | apply emits_process_kill; event_ok
    | apply emits_fetch_abortable; event_ok
    | apply emits_spawn; event_ok
    | apply emits_assign_serverProcess
    | apply emits_serverProcess_unref; event_ok
    | assumption
    | match goal with H : _ |- _ => apply H end
    | match goal with
      | |- emits _ (match ?x with _ => _ end) => destruct x
      | |- emits _ (if ?x then _ else _) => destruct x
      end ].

Section Emits.

Variable os : OS.
Variable self : ServerManager.

Lemma emits_isServerRunning url :
  emits (of_kinds [KFetch; KSleep; KDebug]) (isServerRunning os url).
Proof. unfold isServerRunning. emits_tac. Qed.

Lemma emits_waitLoop fuel url start timeout :
  emits (of_kinds [KFetch; KSleep; KDebug]) (waitLoop os fuel url start timeout).
Proof.
  induction fuel as [| fuel IH]; cbn [waitLoop].
  - emits_tac.
  - pose proof (emits_isServerRunning (Some url)). emits_tac.
Qed.

Lemma emits_waitForServerReady url timeout :
  emits (of_kinds [KFetch; KSleep; KDebug]) (waitForServerReady os url timeout).
Proof.
  unfold waitForServerReady.
  pose proof (emits_waitLoop (poll_fuel (default 15000 timeout)) url).
  emits_tac.
Qed.

Lemma emits_isProcessRunning pid :
  emits (of_kinds [KRead; KKill; KUnlink]) (isProcessRunning os pid).
Proof. unfold isProcessRunning. emits_tac. Qed.

Lemma emits_getServerPid :
  emits (of_kinds [KRead; KKill; KUnlink]) (getServerPid os self).
Proof.
  unfold getServerPid, swallow.
  pose proof emits_isProcessRunning. emits_tac.
Qed.

Lemma emits_stopServer :
  emits (of_kinds [KRead; KKill; KUnlink; KSleep; KDebug]) (stopServer os self).
Proof.
  unfold stopServer, swallow.
  assert (Hg : emits (of_kinds [KRead; KKill; KUnlink; KSleep; KDebug])
                     (getServerPid os self)).
  { eapply emits_mono; [| apply emits_getServerPid]. sub_kinds. }
  assert (Hp : forall n, emits (of_kinds [KRead; KKill; KUnlink; KSleep; KDebug])
                               (isProcessRunning os n)).
  { intros n. eapply emits_mono; [| apply emits_isProcessRunning]. sub_kinds. }
  emits_tac.
Qed.

Lemma emits_findServerPath_from P paths :
  (forall msg, P (EvDebug msg)) -> emits P (findServerPath_from os paths).
Proof.
  intros HP. induction paths as [| p paths IH]; cbn [findServerPath_from]; emits_tac.
Qed.

End Emits.

(** ** The health check *)

Lemma healthy_iff r :
  healthy r = true <->
  exists status t, r = Responds status t /\ t < 3000 /\ 200 <= status <= 299.
Proof.
  destruct r as [status t | t |]; cbn; unfold response_ok.
  - rewrite !andb_true_iff, Z.ltb_lt, !Z.leb_le. split.
    + intros (Ht & H1 & H2). exists status, t. repeat split; auto.
    + intros (s' & t' & [= -> ->] & Ht & H1 & H2). auto.
  - split; [discriminate | intros (s' & t' & [=] & _)].
  - split; [discriminate | intros (s' & t' & [=] & _)].
Qed.

Lemma reply_time_bounds r : 0 <= reply_time r <= 3000.
Proof. destruct r; cbn; lia. Qed.

Lemma isServerRunning_run os serverUrl w :
  let reply :=
    os_fetch os (w_trace w) (default "http://localhost:3005"%string serverUrl +:+ "/") in
  run_result (isServerRunning os serverUrl) w = Ret (healthy reply) /\
  w_now (run_state (isServerRunning os serverUrl) w) = w_now w + reply_time reply /\
  w_files (run_state (isServerRunning os serverUrl) w) = w_files w /\
  w_serverProcess (run_state (isServerRunning os serverUrl) w) = w_serverProcess w /\
  exists rest,
    w_trace (run_state (isServerRunning os serverUrl) w)
    = w_trace w ++ EvFetch (default "http://localhost:3005"%string serverUrl +:+ "/") reply :: rest /\
    Forall (of_kinds [KDebug]) rest.
Proof.
  unfold run_result, run_state, isServerRunning, try_catch, bind, fetch_abortable,
    log_debug, ret, healthy.
  cbn.
  destruct (os_fetch os (w_trace w) _) as [status t | t |]; cbn.
  - destruct (Z.ltb_spec t 3000); cbn.
    + repeat split; try lia. exists []. split; [reflexivity | constructor].
    + repeat split; try lia. eexists. rewrite <- app_assoc. split; [reflexivity |].
      repeat constructor; event_ok.
  - destruct (Z.ltb_spec t 3000); cbn.
    + repeat split; try lia. eexists. rewrite <- app_assoc. split; [reflexivity |].
      repeat constructor; event_ok.
    + repeat split; try lia. eexists. rewrite <- app_assoc. split; [reflexivity |].
      repeat constructor; event_ok.
  - repeat split; try lia. eexists. rewrite <- app_assoc. split; [reflexivity |].
    repeat constructor; event_ok.
Qed.

(** C6.  [isServerRunning] answers [true] exactly when a response with a
    success status (200..299) settles before the 3000 ms timer; a rejected
    request, a non-success status and a timeout all give [false]; the
    result is always a value, never an exception, and the call takes at
    most 3000 ms. *)
Theorem isServerRunning_true_iff_success_in_time
    (os : OS) (serverUrl : option string) (w : World) :
  let reply :=
    os_fetch os (w_trace w) (default "http://localhost:3005"%string serverUrl +:+ "/") in
  (exists b, run_result (isServerRunning os serverUrl) w = Ret b /\
     (b = true <->
      exists status t, reply = Responds status t /\ t < 3000 /\ 200 <= status <= 299)) /\
  (forall t, reply = Rejects t ->
     run_result (isServerRunning os serverUrl) w = Ret false) /\
  (forall status t, reply = Responds status t -> ~ (200 <= status <= 299) ->
     run_result (isServerRunning os serverUrl) w = Ret false) /\
  (forall status t, reply = Responds status t -> 3000 <= t ->
     run_result (isServerRunning os serverUrl) w = Ret false) /\
  (reply = Hangs -> run_result (isServerRunning os serverUrl) w = Ret false) /\
  w_now (run_state (isServerRunning os serverUrl) w) - w_now w <= 3000.
Proof.
  intros reply.
  destruct (isServerRunning_run os serverUrl w) as (R & N & _).
  fold reply in R, N.
  assert (HF : forall r, reply = r -> healthy r = false ->
                 run_result (isServerRunning os serverUrl) w = Ret false).
  { intros r E H. rewrite R, E, H. reflexivity. }
  split; [| repeat split].
  - exists (healthy reply). split; [exact R | apply healthy_iff].
  - intros t E. apply (HF _ E). reflexivity.
  - intros status t E Hs. apply (HF _ E). cbn. unfold response_ok.
    destruct (Z.leb_spec 200 status), (Z.leb_spec status 299); cbn;
      rewrite ?andb_false_r; auto; lia.
  - intros status t E Ht. apply (HF _ E). cbn.
    destruct (Z.ltb_spec t 3000); [lia | reflexivity].
  - intros E. apply (HF _ E). reflexivity.
  - pose proof (reply_time_bounds reply). lia.
Qed.

(** ** The readiness poll *)

Section Poll.

Variable os : OS.

Lemma waitLoop_round fuel url start timeout w :
  waitLoop os (S fuel) url start timeout w =
  if w_now w - start <? timeout then
    if healthy (os_fetch os (w_trace w) (url +:+ "/")) then
      (Ret true, run_state (isServerRunning os (Some url)) w)
    else
      waitLoop os fuel url start timeout
        (after_sleep os 500 (run_state (isServerRunning os (Some url)) w))
  else (Ret false, w).
Proof.
  cbn [waitLoop]. unfold bind at 1. unfold Date_now at 1.
  destruct (w_now w - start <? timeout); [| reflexivity].
  unfold bind at 1.
  destruct (isServerRunning_run os (Some url) w) as (R & _).
  unfold run_result, run_state in *. change (default _ (Some url)) with url in R.
  destruct (isServerRunning os (Some url) w) as [r w1]. cbn in R. subst r.
  destruct (healthy _); reflexivity.
Qed.

Lemma after_sleep_now ms w : w_now w + Z.max 0 ms <= w_now (after_sleep os ms w).
Proof. unfold after_sleep, run_state, sleep. cbn. lia. Qed.

(** With enough fuel for the time that is left the loop returns. *)
Lemma waitLoop_returns fuel url start timeout w :
  start + timeout - w_now w <= 500 * (Z.of_nat fuel - 1) ->
  (1 <= fuel)%nat ->
  exists b, run_result (waitLoop os fuel url start timeout) w = Ret b.
Proof.
  revert w. induction fuel as [| fuel IH]; intros w Hleft Hfuel; [lia |].
  unfold run_result. rewrite waitLoop_round.
  destruct (Z.ltb_spec (w_now w - start) timeout) as [Hlt | Hge].
  - destruct (healthy _); [exists true; reflexivity |].
    destruct (isServerRunning_run os (Some url) w) as (_ & N & _).
    pose proof (reply_time_bounds (os_fetch os (w_trace w) (url +:+ "/"))) as B.
    change (default _ (Some url)) with url in N.
    pose proof (after_sleep_now 500 (run_state (isServerRunning os (Some url)) w)).
    apply IH; lia.
  - exists false. reflexivity.
Qed.

(** While the endpoint is never healthy the loop cannot answer [true]. *)
Lemma waitLoop_unhealthy fuel url start timeout w :
  (forall h, healthy (os_fetch os h (url +:+ "/")) = false) ->
  run_result (waitLoop os fuel url start timeout) w <> Ret true.
Proof.
  intros Hbad. revert w. induction fuel as [| fuel IH]; intros w.
  - cbn. discriminate.
  - unfold run_result. rewrite waitLoop_round, Hbad.
    destruct (_ <? _); [apply IH | discriminate].
Qed.

Lemma waitForServerReady_returns url timeout w :
  exists b, run_result (waitForServerReady os url timeout) w = Ret b.
Proof.
  unfold waitForServerReady, run_result, bind, Date_now.
  apply waitLoop_returns; unfold poll_fuel; [| lia].
  set (t := default 15000 timeout).
  destruct (Z.le_gt_cases 0 t) as [Hpos | Hneg].
  - rewrite Nat2Z.inj_add, Z2Nat.id by (apply Z.div_pos; lia).
    pose proof (Z.mod_pos_bound t 500 ltac:(lia)).
    pose proof (Z.div_mod t 500 ltac:(lia)). lia.
  - lia.
Qed.

Lemma waitForServerReady_unhealthy url timeout w :
  (forall h, healthy (os_fetch os h (url +:+ "/")) = false) ->
  run_result (waitForServerReady os url timeout) w = Ret false.
Proof.
  intros Hbad.
  destruct (waitForServerReady_returns url timeout w) as [[|] Hb]; [| exact Hb].
  exfalso. revert Hb. unfold waitForServerReady, run_result, bind, Date_now.
  apply waitLoop_unhealthy, Hbad.
Qed.

(** The default poll begins with a health check at once; when that one is
    healthy the poll is over. *)
Lemma waitForServerReady_first url w :
  let reply := os_fetch os (w_trace w) (url +:+ "/") in
  (exists rest,
     w_trace (run_state (waitForServerReady os url None) w)
     = w_trace w ++ EvFetch (url +:+ "/") reply :: rest) /\
  (healthy reply = true ->
   waitForServerReady os url None w
   = (Ret true, run_state (isServerRunning os (Some url)) w)).
Proof.
  intros reply.
  assert (E : waitForServerReady os url None w
              = waitLoop os (S 31) url (w_now w) 15000 w) by reflexivity.
  unfold run_state. rewrite E.
  rewrite waitLoop_round.
  replace (w_now w - w_now w <? 15000) with true
    by (symmetry; apply Z.ltb_lt; lia).
  fold reply.
  destruct (isServerRunning_run os (Some url) w) as (_ & _ & _ & _ & rest & T & _).
  change (default _ (Some url)) with url in T. fold reply in T.
  destruct (healthy reply) eqn:Hh.
  - split; [| reflexivity]. exists rest. exact T.
  - split; [| discriminate].
    pose proof (emits_waitLoop os 31 url (w_now w) 15000
                  (after_sleep os 500 (run_state (isServerRunning os (Some url)) w)))
      as (evs & T2 & _).
    unfold run_state in T2 |- *. rewrite T2.
    unfold after_sleep, run_state, sleep. cbn. unfold run_state in T. rewrite T.
    eexists. rewrite <- !app_assoc. cbn. reflexivity.
Qed.

End Poll.

(** ** Reading the PID record *)

Ltac run_simpl :=
  cbn; rewrite <- ?app_assoc; rewrite ?drop_app_length; cbn.

Ltac unfold_run :=
  unfold run_events, run_result, run_state;
  unfold stopServer, getServerPid, isProcessRunning, swallow,
    try_catch, bind, ret,
    fs_readFile, fs_unlink, process_kill, log_debug, sleep, of_fault;
  cbn beta.

Ltac in_cases :=
  repeat match goal with
         | H : In _ (_ :: _) |- _ => destruct H as [H | H]
         | H : In _ [] |- _ => destruct H
         | H : _ \/ _ |- _ => destruct H
         | H : False |- _ => destruct H
         | H : inl _ = inr _ |- _ => discriminate H
         | H : EvReadFile _ _ = EvReadFile _ _ |- _ => injection H as H; subst
         | H : EvKill _ _ _ = EvKill _ _ _ |- _ => injection H as H; subst
         | H : _ = _ :> Event |- _ => discriminate H
         end.






(** ** Stopping *)

Ltac split_last2 :=
  match goal with
  | |- exists pre, ?l = _ =>
      exists (removelast (removelast l)); reflexivity
  end.

Ltac no_kind := repeat constructor; cbn; discriminate.

(** C3, as the code has it.  When a termination signal sent by
    [stopServer] raises, a live recorded PID had been found, the error is
    logged and [stopServer] returns [false]; the deletion of the PID file
    is not attempted on that path and the files are left as they were. *)
Theorem stopServer_signal_error_keeps_record
    (os : OS) (self : ServerManager) (w : World) (z : Z) (sig : Signal) (e : Error) :
  terminating sig = true ->
  In (EvKill z sig (Some e)) (run_events (stopServer os self) w) ->
  run_result (stopServer os self) w = Ret false /\
  (exists pre,
     run_events (stopServer os self) w
     = pre ++ [EvKill z sig (Some e);
               EvDebug ("Error stopping server: " +:+ error_text e)]) /\
  In (EvKill z SIG0 None) (run_events (stopServer os self) w) /\
  Forall (fun ev => kind ev <> KUnlink) (run_events (stopServer os self) w) /\
  w_files (run_state (stopServer os self) w) = w_files w.
Proof.
  intros Hsig. unfold_run.
  repeat (step; cbn); run_simpl; intros Hin; in_cases; try discriminate.
  all: split; [reflexivity |].
  all: split; [split_last2 |].
  all: split; [cbn; auto 10 |].
  all: split; [no_kind | reflexivity].
Qed.

Lemma stopServer_signal_error_keeps_record_witness :
  run_result (stopServer Ex.os_term_refused Ex.self) Ex.recorded = Ret false /\
  (exists pre,
     run_events (stopServer Ex.os_term_refused Ex.self) Ex.recorded
     = pre ++ [EvKill 4242 SIGTERM (Some Ex.EPERM);
               EvDebug ("Error stopping server: " +:+ error_text Ex.EPERM)]) /\
  In (EvKill 4242 SIG0 None) (run_events (stopServer Ex.os_term_refused Ex.self) Ex.recorded) /\
  Forall (fun ev => kind ev <> KUnlink)
         (run_events (stopServer Ex.os_term_refused Ex.self) Ex.recorded) /\
  w_files (run_state (stopServer Ex.os_term_refused Ex.self) Ex.recorded)
  = w_files Ex.recorded.
Proof.
  apply (stopServer_signal_error_keeps_record
           Ex.os_term_refused Ex.self Ex.recorded 4242 SIGTERM Ex.EPERM).
  - reflexivity.
  - vm_compute. auto 10.
Defined.

(** C3 as stated fails: the recorded process 4242 is found alive, the
    graceful signal raises, [stopServer] logs and returns [false], and no
    deletion of the PID file was attempted: the record is still there. *)
Lemma stopServer_signal_error_counterexample :
  In (EvKill 4242 SIG0 None)
     (run_events (stopServer Ex.os_term_refused Ex.self) Ex.recorded) /\
  In (EvKill 4242 SIGTERM (Some Ex.EPERM))
     (run_events (stopServer Ex.os_term_refused Ex.self) Ex.recorded) /\
  run_result (stopServer Ex.os_term_refused Ex.self) Ex.recorded = Ret false /\
  ~ (exists err, In (EvUnlink (pidFile Ex.self) err)
                    (run_events (stopServer Ex.os_term_refused Ex.self) Ex.recorded)) /\
  w_files (run_state (stopServer Ex.os_term_refused Ex.self) Ex.recorded)
    !! pidFile Ex.self = Some "4242"%string.
Proof.
  split; [vm_compute; auto 10 |].
  split; [vm_compute; auto 10 |].
  split; [vm_compute; reflexivity |].
  split; [| vm_compute; reflexivity].
  intros [err H]. vm_compute in H.
  repeat (destruct H as [H | H]; [discriminate H |]). destruct H.
Qed.

Ltac split_escalation :=
  match goal with
  | |- exists pre err rest, ?l = _ /\ _ =>
      exists (firstn (length l - 6) l); cbn; eexists; eexists;
      split; [reflexivity |]
  end.

(** C4, as the code has it.  When the recorded process is still alive at
    the re-check that follows the 2000 ms grace period, the forceful signal
    is sent after the graceful one, the sleep and the re-check.  If it is
    delivered, [stopServer] attempts the deletion of the PID file and
    returns [true], and the file is absent when that deletion succeeds; if
    it raises, [stopServer] logs, returns [false] and leaves the files as
    they were. *)
Theorem stopServer_escalates
    (os : OS) (self : ServerManager) (w : World) (z : Z) :
  followed_by (EvSleep 2000) (EvKill z SIG0 None)
              (run_events (stopServer os self) w) ->
  exists pre err rest,
    run_events (stopServer os self) w
    = pre ++ [EvKill z SIGTERM None; EvSleep 2000; EvKill z SIG0 None;
              EvDebug "Force killing server"; EvKill z SIGKILL err] ++ rest /\
    match err with
    | None =>
        run_result (stopServer os self) w = Ret true /\
        exists uerr,
          rest = [EvUnlink (pidFile self) uerr] /\
          (uerr = None ->
           w_files (run_state (stopServer os self) w) !! pidFile self = None)
    | Some e =>
        run_result (stopServer os self) w = Ret false /\
        rest = [EvDebug ("Error stopping server: " +:+ error_text e)] /\
        w_files (run_state (stopServer os self) w) = w_files w
    end.
Proof.
  unfold_run.
  repeat (step; cbn); run_simpl; intros Hin; in_cases; try discriminate.
  all: repeat match goal with
         | H : _ /\ _ |- _ => destruct H
         end; in_cases; try discriminate.
  all: split_escalation; cbn.
  all: try (split; [reflexivity |]).
  all: try (split; [reflexivity | reflexivity]).
  all: eexists; split; [reflexivity |]; intros; try discriminate;
       apply lookup_delete_eq.
Qed.

Lemma stopServer_escalates_witness :
  exists pre err rest,
    run_events (stopServer Ex.os_stubborn Ex.self) Ex.recorded
    = pre ++ [EvKill 4242 SIGTERM None; EvSleep 2000; EvKill 4242 SIG0 None;
              EvDebug "Force killing server"; EvKill 4242 SIGKILL err] ++ rest /\
    match err with
    | None =>
        run_result (stopServer Ex.os_stubborn Ex.self) Ex.recorded = Ret true /\
        exists uerr,
          rest = [EvUnlink (pidFile Ex.self) uerr] /\
          (uerr = None ->
           w_files (run_state (stopServer Ex.os_stubborn Ex.self) Ex.recorded)
             !! pidFile Ex.self = None)
    | Some e =>
        run_result (stopServer Ex.os_stubborn Ex.self) Ex.recorded = Ret false /\
        rest = [EvDebug ("Error stopping server: " +:+ error_text e)] /\
        w_files (run_state (stopServer Ex.os_stubborn Ex.self) Ex.recorded)
        = w_files Ex.recorded
    end.
Proof.
  apply (stopServer_escalates Ex.os_stubborn Ex.self Ex.recorded 4242).
  vm_compute. auto 10.
Defined.

(** C4 as stated fails in its last part.  Twice the recorded process 4242
    is still alive at the re-check after the grace period, and the PID file
    is there when [stopServer] has returned: once because the forceful
    signal raised, once because the deletion failed. *)
Lemma stopServer_escalates_counterexample :
  (followed_by (EvSleep 2000) (EvKill 4242 SIG0 None)
     (run_events (stopServer Ex.os_kill_raises Ex.self) Ex.recorded) /\
   run_result (stopServer Ex.os_kill_raises Ex.self) Ex.recorded = Ret false /\
   w_files (run_state (stopServer Ex.os_kill_raises Ex.self) Ex.recorded)
     !! pidFile Ex.self = Some "4242"%string) /\
  (followed_by (EvSleep 2000) (EvKill 4242 SIG0 None)
     (run_events (stopServer Ex.os_undeletable Ex.self) Ex.recorded) /\
   run_result (stopServer Ex.os_undeletable Ex.self) Ex.recorded = Ret true /\
   w_files (run_state (stopServer Ex.os_undeletable Ex.self) Ex.recorded)
     !! pidFile Ex.self = Some "4242"%string).
Proof.
  split; (split; [vm_compute; auto 10 |]);
    (split; vm_compute; reflexivity).
Qed.

(** ** Ensuring *)

Lemma isServerRunning_healthy os url w :
  healthy (os_fetch os (w_trace w) (url +:+ "/")) = true ->
  run_result (isServerRunning os (Some url)) w = Ret true /\
  w_trace (run_state (isServerRunning os (Some url)) w)
  = w_trace w ++ [EvFetch (url +:+ "/") (os_fetch os (w_trace w) (url +:+ "/"))] /\
  w_files (run_state (isServerRunning os (Some url)) w) = w_files w.
Proof.
  unfold run_result, run_state, isServerRunning, try_catch, bind,
    fetch_abortable, ret, healthy.
  change (default _ (Some url)) with url. cbn beta.
  destruct (os_fetch os (w_trace w) (url +:+ "/")) as [status t | t |];
    try discriminate.
  intros [Ht Hs]%andb_true_iff. rewrite Ht. cbn. rewrite Hs. auto.
Qed.

Lemma ensureServerRunning_healthy os self config w :
  healthy (os_fetch os (w_trace w)
             (("http://localhost:" +:+ num_toString (ensure_port config)) +:+ "/")) = true ->
  run_result (ensureServerRunning os self config) w = Ret true /\
  run_events (ensureServerRunning os self config) w
  = [EvFetch (("http://localhost:" +:+ num_toString (ensure_port config)) +:+ "/")
             (os_fetch os (w_trace w)
                (("http://localhost:" +:+ num_toString (ensure_port config)) +:+ "/"));
     EvDebug "Server is already running and healthy"].
Proof.
  intros H.
  destruct (isServerRunning_healthy os _ w H) as (R & T & _).
  assert (Q : run_result (ensureServerRunning os self config) w = Ret true /\
              w_trace (run_state (ensureServerRunning os self config) w)
              = w_trace w ++
                [EvFetch (("http://localhost:" +:+ num_toString (ensure_port config)) +:+ "/")
                   (os_fetch os (w_trace w)
                      (("http://localhost:" +:+ num_toString (ensure_port config)) +:+ "/"));
                 EvDebug "Server is already running and healthy"]).
  { assert (E : ensureServerRunning os self config w
                = (Ret true,
                   emit (EvDebug "Server is already running and healthy")
                        (run_state (isServerRunning os
                           (Some ("http://localhost:" +:+ num_toString (ensure_port config)))) w))).
    { unfold run_result, run_state in *. unfold ensureServerRunning, bind.
      destruct (isServerRunning os _ w) as [r w1]. cbn in R. subst r.
      reflexivity. }
    unfold run_result, run_state at 1. rewrite E. cbn.
    rewrite T, <- app_assoc. auto. }
  destruct Q as [Q1 Q2]. split; [exact Q1 |].
  apply run_events_eq, Q2.
Qed.

(** C5.  When the health check against the configured port (3005 when no
    port is configured) reports healthy, [ensureServerRunning] returns
    [true] having performed the health check and one log line only, hence
    no spawn; so a second call made while the service is still healthy
    spawns nothing either. *)
Theorem ensureServerRunning_healthy_no_spawn
    (os : OS) (self : ServerManager) (config : option PartialConfig) (w : World) :
  let url := ("http://localhost:" +:+ num_toString (ensure_port config)) +:+ "/" in
  healthy (os_fetch os (w_trace w) url) = true ->
  (run_result (ensureServerRunning os self config) w = Ret true /\
   run_events (ensureServerRunning os self config) w
   = [EvFetch url (os_fetch os (w_trace w) url);
      EvDebug "Server is already running and healthy"] /\
   Forall (fun e => kind e <> KSpawn)
          (run_events (ensureServerRunning os self config) w)) /\
  (let w1 := run_state (ensureServerRunning os self config) w in
   healthy (os_fetch os (w_trace w1) url) = true ->
   run_result (ensureServerRunning os self config) w1 = Ret true /\
   Forall (fun e => kind e <> KSpawn)
          (run_events (ensureServerRunning os self config) w1)) /\
  (forall c p, config = Some c -> p_port c = Some p -> p <> 0 ->
     ensure_port config = p) /\
  (forall c, config = Some c -> p_port c = None -> ensure_port config = 3005) /\
  (config = None -> ensure_port config = 3005).
Proof.
  intros url H.
  assert (One : forall w0, healthy (os_fetch os (w_trace w0) url) = true ->
            run_result (ensureServerRunning os self config) w0 = Ret true /\
            run_events (ensureServerRunning os self config) w0
            = [EvFetch url (os_fetch os (w_trace w0) url);
               EvDebug "Server is already running and healthy"] /\
            Forall (fun e => kind e <> KSpawn)
                   (run_events (ensureServerRunning os self config) w0)).
  { intros w0 H0.
    destruct (ensureServerRunning_healthy os self config w0 H0) as [R E].
    split; [exact R |]. split; [exact E |]. rewrite E. no_kind. }
  split; [apply One, H |].
  split; [intros w1 H1; destruct (One w1 H1) as (R & _ & F); auto |].
  split; [| split].
  - intros c p -> Hp Hne. cbn. rewrite Hp.
    destruct (Z.eqb_spec p 0); [contradiction | reflexivity].
  - intros c -> Hp. cbn. rewrite Hp. reflexivity.
  - intros ->. reflexivity.
Qed.

Lemma ensureServerRunning_healthy_no_spawn_witness :
  run_result (ensureServerRunning Ex.os_healthy Ex.self None) Ex.fresh = Ret true /\
  Forall (fun e => kind e <> KSpawn)
         (run_events (ensureServerRunning Ex.os_healthy Ex.self None) Ex.fresh) /\
  run_result (ensureServerRunning Ex.os_healthy Ex.self None)
             (run_state (ensureServerRunning Ex.os_healthy Ex.self None) Ex.fresh)
  = Ret true /\
  Forall (fun e => kind e <> KSpawn)
         (run_events (ensureServerRunning Ex.os_healthy Ex.self None)
            (run_state (ensureServerRunning Ex.os_healthy Ex.self None) Ex.fresh)).
Proof.
  pose proof (ensureServerRunning_healthy_no_spawn
                Ex.os_healthy Ex.self None Ex.fresh eq_refl)
    as ((R & _ & F) & Second & _).
  specialize (Second eq_refl). destruct Second as [R2 F2].
  repeat split; assumption.
Defined.

(** ** The child's environment *)

Ltac other_kinds :=
  let e := fresh "e" in
  let He := fresh "He" in
  intros e He; destruct e; cbn; try exact I;
  exfalso; revert He; unfold of_kinds; cbn;
  apply (bool_decide_unpack _); vm_compute; reflexivity.

Lemma emits_startServer_spawns os self config :
  emits (spawns_with os config) (startServer os self config).
Proof.
  unfold startServer, findServerPath.
  assert (Hf : forall paths,
             emits (spawns_with os config) (findServerPath_from os paths)).
  { intros paths. apply emits_findServerPath_from. intros msg. exact I. }
  assert (Hw : forall url t,
             emits (spawns_with os config) (waitForServerReady os url t)).
  { intros url t. eapply emits_mono; [| apply emits_waitForServerReady].
    other_kinds. }
  assert (Hs : emits (spawns_with os config) (stopServer os self)).
  { eapply emits_mono; [| apply emits_stopServer]. other_kinds. }
  emits_tac.
  apply emits_spawn. intros res. cbn. repeat split; reflexivity.
Qed.

Lemma child_env_lookup os config :
  child_env os config !! "DATABASE_URL"%string = Some (databaseUrl config) /\
  child_env os config !! "REDIS_URL"%string = Some (redisUrl config) /\
  child_env os config !! "HANDY_MASTER_SECRET"%string = Some (masterSecret config) /\
  child_env os config !! "PORT"%string = Some (num_toString (port config)) /\
  child_env os config !! "NODE_ENV"%string
  = Some (or_str (os_env os !! "NODE_ENV"%string) "development") /\
  (forall k, k ∉ overlaid -> child_env os config !! k = os_env os !! k).
Proof.
  unfold child_env.
  repeat split.
  1-5: repeat first [ rewrite lookup_insert_eq; reflexivity
                    | rewrite lookup_insert_ne by discriminate ].
  intros k Hk. unfold overlaid in Hk.
  repeat (rewrite lookup_insert_ne;
          [| intros <-; apply Hk; apply (bool_decide_unpack _); vm_compute; reflexivity]).
  reflexivity.
Qed.

(** C8, as the code has it.  The environment of the child that
    [startServer] spawns is the parent's with [DATABASE_URL], [REDIS_URL],
    [HANDY_MASTER_SECRET] and [PORT] (decimal text) set from the
    configuration; every other variable but [NODE_ENV] is inherited;
    [NODE_ENV] is inherited when the parent has it with a non-empty value
    and is ['development'] when the parent lacks it or has it empty. *)
Theorem startServer_child_environment
    (os : OS) (self : ServerManager) (config : ServerConfig) (w : World)
    (cmd : string) (args : list string) (opts : SpawnOptions) (res : SpawnResult) :
  In (EvSpawn cmd args opts res) (run_events (startServer os self config) w) ->
  so_env opts !! "DATABASE_URL"%string = Some (databaseUrl config) /\
  so_env opts !! "REDIS_URL"%string = Some (redisUrl config) /\
  so_env opts !! "HANDY_MASTER_SECRET"%string = Some (masterSecret config) /\
  so_env opts !! "PORT"%string = Some (num_toString (port config)) /\
  (forall k, k ∉ overlaid -> so_env opts !! k = os_env os !! k) /\
  (forall v, os_env os !! "NODE_ENV"%string = Some v -> v <> ""%string ->
     so_env opts !! "NODE_ENV"%string = Some v) /\
  (os_env os !! "NODE_ENV"%string = None ->
     so_env opts !! "NODE_ENV"%string = Some "development"%string) /\
  (os_env os !! "NODE_ENV"%string = Some ""%string ->
     so_env opts !! "NODE_ENV"%string = Some "development"%string).
Proof.
  intros Hin.
  pose proof (emits_startServer_spawns os self config w) as X.
  apply extends_run_events in X. destruct X as [_ F].
  rewrite Forall_forall in F. apply list_elem_of_In in Hin.
  specialize (F _ Hin). cbn in F. destruct F as (_ & _ & -> & _).
  destruct (child_env_lookup os config) as (D & R & S & P & N & O).
  repeat split; auto.
  - intros v Hv Hne. rewrite N, Hv. destruct v; [contradiction | reflexivity].
  - intros Hv. rewrite N, Hv. reflexivity.
  - intros Hv. rewrite N, Hv. reflexivity.
Qed.

Lemma startServer_child_environment_witness :
  let opts := spawn_options Ex.os_healthy Ex.config "/opt/happy-server" in
  so_env opts !! "DATABASE_URL"%string = Some (databaseUrl Ex.config) /\
  so_env opts !! "REDIS_URL"%string = Some (redisUrl Ex.config) /\
  so_env opts !! "HANDY_MASTER_SECRET"%string = Some (masterSecret Ex.config) /\
  so_env opts !! "PORT"%string = Some (num_toString (port Ex.config)) /\
  (forall k, k ∉ overlaid -> so_env opts !! k = os_env Ex.os_healthy !! k) /\
  (forall v, os_env Ex.os_healthy !! "NODE_ENV"%string = Some v -> v <> ""%string ->
     so_env opts !! "NODE_ENV"%string = Some v) /\
  (os_env Ex.os_healthy !! "NODE_ENV"%string = None ->
     so_env opts !! "NODE_ENV"%string = Some "development"%string) /\
  (os_env Ex.os_healthy !! "NODE_ENV"%string = Some ""%string ->
     so_env opts !! "NODE_ENV"%string = Some "development"%string).
Proof.
  intros opts.
  apply (startServer_child_environment Ex.os_healthy Ex.self Ex.config Ex.fresh
           "yarn" ["start"%string] opts (Spawned Ex.child4242)).
  vm_compute. right. right. left. reflexivity.
Defined.

(** C8 as stated fails: the parent has [NODE_ENV] (set to the empty
    string), and the child is spawned with [NODE_ENV=development]. *)
Lemma startServer_child_environment_counterexample :
  os_env Ex.os_empty_node_env !! "NODE_ENV"%string = Some ""%string /\
  (exists cmd args opts res,
     In (EvSpawn cmd args opts res)
        (run_events (startServer Ex.os_empty_node_env Ex.self Ex.config) Ex.fresh) /\
     so_env opts !! "NODE_ENV"%string = Some "development"%string) /\
  child_env Ex.os_empty_node_env Ex.config !! "NODE_ENV"%string
  = Some "development"%string.
Proof.
  split; [vm_compute; reflexivity |].
  split; [| vm_compute; reflexivity].
  exists "yarn"%string, ["start"%string],
    (spawn_options Ex.os_empty_node_env Ex.config "/opt/happy-server"),
    (Spawned Ex.child4242).
  split; [| vm_compute; reflexivity].
  vm_compute. right. right. left. reflexivity.
Qed.

(** ** Decimal text of a PID *)

Lemma uint_chars_no_space d : Forall (fun c => is_space c = false) (uint_chars d).
Proof.
  unfold uint_chars. induction d; cbn; constructor; auto.
Qed.

Lemma drop_space_id cs :
  Forall (fun c => is_space c = false) cs -> drop_space cs = cs.
Proof. intros [| c cs' Hc _]; [reflexivity |]. cbn. rewrite Hc. reflexivity. Qed.

Lemma trim_id s :
  Forall (fun c => is_space c = false) (list_ascii_of_string s) -> trim s = s.
Proof.
  intros H. unfold trim. rewrite (drop_space_id _ H).
  rewrite drop_space_id by (apply Forall_rev, H).
  rewrite rev_involutive. apply string_of_list_ascii_of_string.
Qed.

Ltac eval_digit :=
  match goal with
  | |- context [digit_of 10 ?c] =>
      let v := eval vm_compute in (digit_of 10 c) in
      change (digit_of 10 c) with v
  end.

Lemma digits_value_pos d p :
  digits_value 10 (Z.pos p) (uint_chars d) = Z.pos (Pos.of_uint_acc d p).
Proof.
  unfold uint_chars. revert p.
  induction d; intros p;
    cbn [NilEmpty.string_of_uint list_ascii_of_string digits_value Pos.of_uint_acc];
    [reflexivity | ..];
    eval_digit; cbn iota; rewrite <- IHd; f_equal;
    lia.
Qed.

Lemma digits_value_zero d :
  digits_value 10 0 (uint_chars d) = Z.of_N (Pos.of_uint d).
Proof.
  induction d; [reflexivity | ..];
    unfold uint_chars in *;
    cbn [NilEmpty.string_of_uint list_ascii_of_string digits_value Pos.of_uint];
    eval_digit; cbn iota; [exact IHd | ..];
    apply (digits_value_pos d).
Qed.

Lemma parse_unsigned_uint d :
  d <> Nil -> parse_unsigned (uint_chars d) = Int (Z.of_N (Pos.of_uint d)).
Proof.
  intros Hd. rewrite <- digits_value_zero.
  destruct d as [| d | d | d | d | d | d | d | d | d | d];
    [contradiction | ..]; try reflexivity.
  destruct d; reflexivity.
Qed.

Lemma string_of_uint_nonnil d :
  d <> Nil -> NilZero.string_of_uint d = NilEmpty.string_of_uint d.
Proof. destruct d; [contradiction | reflexivity ..]. Qed.

Lemma num_toString_chars_no_space z :
  Forall (fun c => is_space c = false) (list_ascii_of_string (num_toString z)).
Proof.
  unfold num_toString.
  destruct z as [| p | p]; cbn [Z.to_int NilZero.string_of_int].
  - repeat constructor.
  - rewrite string_of_uint_nonnil by apply Unsigned.to_uint_nonnil.
    apply uint_chars_no_space.
  - rewrite string_of_uint_nonnil by apply Unsigned.to_uint_nonnil.
    cbn [list_ascii_of_string]. constructor; [reflexivity |].
    apply uint_chars_no_space.
Qed.

Lemma parse_sign_uint d :
  d <> Nil ->
  match uint_chars d with
  | "-"%char :: cs => negate (parse_unsigned cs)
  | "+"%char :: cs => parse_unsigned cs
  | cs => parse_unsigned cs
  end = parse_unsigned (uint_chars d).
Proof. destruct d; [contradiction | reflexivity ..]. Qed.

Theorem parseInt_num_toString z : parseInt (trim (num_toString z)) = Int z.
Proof.
  rewrite trim_id by apply num_toString_chars_no_space.
  unfold parseInt.
  rewrite drop_space_id by apply num_toString_chars_no_space.
  unfold num_toString.
  destruct z as [| p | p]; cbn [Z.to_int NilZero.string_of_int].
  - reflexivity.
  - rewrite string_of_uint_nonnil by apply Unsigned.to_uint_nonnil.
    fold (uint_chars (Pos.to_uint p)).
    rewrite parse_sign_uint, parse_unsigned_uint
      by apply Unsigned.to_uint_nonnil.
    rewrite Unsigned.of_to. reflexivity.
  - rewrite string_of_uint_nonnil by apply Unsigned.to_uint_nonnil.
    cbn [list_ascii_of_string]. fold (uint_chars (Pos.to_uint p)).
    rewrite parse_unsigned_uint by apply Unsigned.to_uint_nonnil.
    rewrite Unsigned.of_to. reflexivity.
Qed.

(** ** Launching *)

Lemma emits_resolve_path os config :
  emits (of_kinds [KDebug]) (resolve_path os config).
Proof.
  unfold resolve_path, findServerPath.
  destruct (truthy_opt_str _); [emits_tac |].
  apply emits_findServerPath_from. event_ok.
Qed.


Lemma debug_no_mutation evs :
  Forall (of_kinds [KDebug]) evs -> Forall (fun e => mutates e = false) evs.
Proof.
  intros H. eapply Forall_impl; [exact H |].
  intros e He. destruct e; try reflexivity;
    exfalso; revert He; unfold of_kinds; cbn;
    apply (bool_decide_unpack _); vm_compute; reflexivity.
Qed.

Lemma debug_mkdir evs :
  Forall (of_kinds [KDebug]) evs -> Forall (of_kinds [KDebug; KMkdir]) evs.
Proof. intros H. eapply Forall_impl; [exact H |]. sub_kinds. Qed.

Lemma findServerPath_from_returns os paths w :
  exists o, run_result (findServerPath_from os paths) w = Ret o.
Proof.
  induction paths as [| p paths IH]; cbn [findServerPath_from].
  - eexists. reflexivity.
  - destruct (os_manifest os p) as [m |]; [| exact IH].
    destruct (accepts_manifest m); [| exact IH].
    eexists. reflexivity.
Qed.

Lemma resolve_path_returns os config w :
  exists o, run_result (resolve_path os config) w = Ret o.
Proof.
  unfold resolve_path. destruct (truthy_opt_str _).
  - eexists. reflexivity.
  - apply findServerPath_from_returns.
Qed.

Lemma launch_run os self config w :
  LaunchRun self w (run_result (launch os self config) w)
            (run_state (launch os self config) w)
            (run_events (launch os self config) w).
Proof.
  unfold run_result, run_events, run_state.
  destruct (launch os self config w) as [r w'] eqn:E. cbn [fst snd].
  revert E. unfold launch.
  fold (resolve_path os config).
  unfold bind at 1. unfold log_debug at 1. unfold bind at 1.
  pose proof (emits_resolve_path os config (emit (EvDebug "Starting Happy server...") w))
    as (evs0 & T0 & F0 & _ & K0).
  destruct (resolve_path_returns os config
              (emit (EvDebug "Starting Happy server...") w)) as [sp R0].
  unfold run_state, run_result in *.
  destruct (resolve_path os config _) as [r0 w0]. cbn [fst snd] in *. subst r0.
  cbn in T0, K0.
  assert (Hfiles : w_files w0 = w_files w) by (apply K0, debug_no_mutation, F0).
  clear K0.
  rewrite <- app_assoc in T0. cbn in T0.
  assert (F1 : Forall (of_kinds [KDebug]) (EvDebug "Starting Happy server..." :: evs0)).
  { constructor; [event_ok | exact F0]. }
  set (pre := EvDebug "Starting Happy server..." :: evs0) in *. clearbody pre.
  clear F0 evs0.
  cbn.
  unfold bind, log_debug, fs_mkdir, spawn, assign_serverProcess, fs_writeFile, ret, of_fault.
  repeat (step; cbn); intros [= <- <-]; cbn; rewrite ?T0;
    rewrite <- ?app_assoc; rewrite ?drop_app_length.
  all: try rewrite (app_assoc pre [EvMkdir _ None]); cbn [app].
  all: assert (F2 : forall err,
           Forall (of_kinds [KDebug; KMkdir])
                  (pre ++ [EvMkdir (os_dirname os (logFile self)) err]))
      by (intros err; apply Forall_app; split;
          [apply debug_mkdir, F1 | repeat constructor; event_ok]).
  - apply Launch_mkdir_fails; auto.
  - apply Launch_spawn_throws; auto.
  - apply Launch_write_fails; auto.
  - apply Launch_pid_saved; auto. cbn. rewrite Hfiles. reflexivity.
  - apply Launch_no_pid; auto.
  - apply Launch_no_path; auto.
    apply Forall_app; split; [exact F1 | repeat constructor; event_ok].
Qed.

Lemma startServer_split os self config w :
  startServer os self config w =
  match launch os self config w with
  | (Ret None, w1) => (Ret false, w1)
  | (Ret (Some _), w1) => try_catch (settle os self config) start_failed w1
  | (Throw e, w1) => start_failed e w1
  | (Diverge, w1) => (Diverge, w1)
  end.
Proof.
  unfold startServer, launch, settle, start_failed, health_url.
  fold (resolve_path os config).
  unfold try_catch, bind, log_debug, fs_mkdir, spawn, assign_serverProcess,
    fs_writeFile, ret, of_fault.
  repeat (step; cbn); try reflexivity.
Qed.


(** ** Settling: poll, then detach or roll back *)

Section Settle.

Variable os : OS.
Variable self : ServerManager.
Variable config : ServerConfig.

Lemma emits_launch :
  emits (of_kinds [KDebug; KMkdir; KSpawn; KWrite]) (launch os self config).
Proof.
  unfold launch, findServerPath.
  assert (Hf : forall paths,
             emits (of_kinds [KDebug; KMkdir; KSpawn; KWrite])
                   (findServerPath_from os paths)).
  { intros paths. apply emits_findServerPath_from. event_ok. }
  emits_tac.
Qed.

Lemma emits_settle :
  emits (of_kinds settle_kinds) (try_catch (settle os self config) start_failed).
Proof.
  unfold settle, start_failed, settle_kinds.
  assert (Hw : emits (of_kinds [KFetch; KSleep; KDebug; KUnref; KRead; KKill; KUnlink])
                     (waitForServerReady os (health_url config) None)).
  { eapply emits_mono; [| apply emits_waitForServerReady]. sub_kinds. }
  assert (Hs : emits (of_kinds [KFetch; KSleep; KDebug; KUnref; KRead; KKill; KUnlink])
                     (stopServer os self)).
  { eapply emits_mono; [| apply emits_stopServer]. sub_kinds. }
  emits_tac.
Qed.

Lemma stopServer_returns w :
  exists b, run_result (stopServer os self) w = Ret b.
Proof.
  unfold_run. repeat (step; cbn); eauto.
Qed.

Lemma settle_eq w1 :
  try_catch (settle os self config) start_failed w1 =
  match waitForServerReady os (health_url config) None w1 with
  | (Ret true, w2) =>
      match serverProcess_unref (emit (EvDebug "Server is ready and healthy") w2) with
      | (Ret _, w3) => (Ret true, w3)
      | (Throw e, w3) => start_failed e w3
      | (Diverge, w3) => (Diverge, w3)
      end
  | (Ret false, w2) =>
      match stopServer os self
              (emit (EvDebug "Server failed to start properly") w2) with
      | (Ret _, w3) => (Ret false, w3)
      | (Throw e, w3) => start_failed e w3
      | (Diverge, w3) => (Diverge, w3)
      end
  | (Throw e, w2) => start_failed e w2
  | (Diverge, w2) => (Diverge, w2)
  end.
Proof.
  unfold settle, try_catch, bind, log_debug, ret.
  repeat (step; cbn); reflexivity.
Qed.

(** The poll answers; on [true] the child is detached and nothing touches
    the files, on [false] [stopServer] is run and [false] returned. *)
Lemma settle_run w1 :
  (run_result (waitForServerReady os (health_url config) None) w1 = Ret true /\
   w_files (run_state (try_catch (settle os self config) start_failed) w1)
   = w_files w1) \/
  (run_result (waitForServerReady os (health_url config) None) w1 = Ret false /\
   run_result (try_catch (settle os self config) start_failed) w1 = Ret false /\
   run_state (try_catch (settle os self config) start_failed) w1
   = run_state (stopServer os self)
       (emit (EvDebug "Server failed to start properly")
             (run_state (waitForServerReady os (health_url config) None) w1))).
Proof.
  destruct (waitForServerReady_returns os (health_url config) None w1) as [b Hb].
  pose proof (emits_waitForServerReady os (health_url config) None w1)
    as (evs & _ & F & _ & K).
  unfold run_result, run_state in *. rewrite settle_eq.
  destruct (waitForServerReady os (health_url config) None w1) as [r w2].
  cbn [fst snd] in *. subst r.
  destruct b.
  - left. split; [reflexivity |].
    assert (Hf : w_files w2 = w_files w1).
    { apply K. eapply Forall_impl; [exact F |].
      intros e He. destruct e; try reflexivity;
        exfalso; revert He; unfold of_kinds; cbn;
        apply (bool_decide_unpack _); vm_compute; reflexivity. }
    unfold serverProcess_unref, start_failed, bind, log_debug, ret. cbn.
    destruct (w_serverProcess w2); cbn; exact Hf.
  - right. split; [reflexivity |].
    destruct (stopServer_returns
                (emit (EvDebug "Server failed to start properly") w2)) as [b Hs].
    unfold run_result in Hs.
    destruct (stopServer os self _) as [r3 w3]. cbn in Hs. subst r3.
    split; reflexivity.
Qed.

End Settle.

(** ** Starting *)

Section Start.
Variable os : OS.
Variable self : ServerManager.
Variable config : ServerConfig.

Lemma first_event_try_bind {A B} (P : Event -> Prop) (m : M A) (k : A -> M B)
    (h : Error -> M B) e w :
  (forall a, emits P (k a)) -> (forall err, emits P (h err)) ->
  (exists rest, w_trace (run_state m w) = w_trace w ++ e :: rest) ->
  exists rest, w_trace (run_state (try_catch (bind m k) h) w) = w_trace w ++ e :: rest.
Proof.
  intros Hk Hh [rest T]. unfold run_state, try_catch, bind in *.
  destruct (m w) as [[a | err |] w2]; cbn [snd] in *.
  - pose proof (Hk a w2) as (evs & Tk & _). unfold run_state in Tk.
    destruct (k a w2) as [[b | err |] w3]; cbn [snd] in *.
    + exists (rest ++ evs). rewrite Tk, T, <- app_assoc. reflexivity.
    + pose proof (Hh err w3) as (evs' & Th & _). unfold run_state in Th.
      exists (rest ++ evs ++ evs'). rewrite Th, Tk, T, <- !app_assoc. reflexivity.
    + exists (rest ++ evs). rewrite Tk, T, <- app_assoc. reflexivity.
  - pose proof (Hh err w2) as (evs' & Th & _). unfold run_state in Th.
    exists (rest ++ evs'). rewrite Th, T, <- app_assoc. reflexivity.
  - exists rest. exact T.
Qed.

Lemma settle_first w1 :
  exists reply rest,
    run_events (try_catch (settle os self config) start_failed) w1
    = EvFetch (health_url config +:+ "/") reply :: rest.
Proof.
  destruct (waitForServerReady_first os (health_url config) w1) as [[rest0 T0] _].
  destruct (first_event_try_bind (of_kinds settle_kinds)
              (waitForServerReady os (health_url config) None)
              (fun ready : bool =>
                 if ready then
                   bind (log_debug "Server is ready and healthy")
                     (fun _ => bind serverProcess_unref (fun _ => ret true))
                 else
                   bind (log_debug "Server failed to start properly")
                     (fun _ => bind (stopServer os self) (fun _ => ret false)))
              start_failed
              (EvFetch (health_url config +:+ "/")
                 (os_fetch os (w_trace w1) (health_url config +:+ "/"))) w1)
    as [rest T].
  - intros [|].
    + unfold settle_kinds. emits_tac.
    + assert (Hs : emits (of_kinds settle_kinds) (stopServer os self)).
      { eapply emits_mono; [| apply emits_stopServer]. unfold settle_kinds. sub_kinds. }
      unfold settle_kinds in *. emits_tac.
  - intros err. unfold start_failed, settle_kinds. emits_tac.
  - exists rest0. exact T0.
  - eexists _, rest. apply run_events_eq. exact T.
Qed.

Lemma launch_trace w :
  w_trace (run_state (launch os self config) w)
  = w_trace w ++ run_events (launch os self config) w.
Proof.
  pose proof (emits_launch os self config w) as X.
  apply extends_run_events in X. apply X.
Qed.

Lemma settle_trace w1 :
  w_trace (run_state (try_catch (settle os self config) start_failed) w1)
  = w_trace w1 ++ run_events (try_catch (settle os self config) start_failed) w1 /\
  Forall (of_kinds settle_kinds)
         (run_events (try_catch (settle os self config) start_failed) w1).
Proof.
  pose proof (emits_settle os self config w1) as X.
  apply extends_run_events in X. apply X.
Qed.

(** What [startServer] is in terms of its two halves. *)
Lemma startServer_run w :
  match run_result (launch os self config) w with
  | Ret (Some _) =>
      startServer os self config w
      = try_catch (settle os self config) start_failed
          (run_state (launch os self config) w) /\
      run_events (startServer os self config) w
      = run_events (launch os self config) w ++
        run_events (try_catch (settle os self config) start_failed)
          (run_state (launch os self config) w)
  | Ret None =>
      startServer os self config w = (Ret false, run_state (launch os self config) w) /\
      run_events (startServer os self config) w = run_events (launch os self config) w
  | Throw e =>
      run_result (startServer os self config) w = Ret false /\
      run_events (startServer os self config) w
      = run_events (launch os self config) w ++
        [EvDebug ("Failed to start server: " +:+ error_text e)]
  | Diverge => False
  end.
Proof.
  pose proof (launch_run os self config w) as LR.
  pose proof (launch_trace w) as LT.
  pose proof (startServer_split os self config w) as SP.
  unfold run_result, run_state in *.
  destruct (launch os self config w) as [r w1]. cbn [fst snd] in *.
  destruct r as [[c |] | e |].
  - split; [exact SP |].
    destruct (settle_trace w1) as [ST _].
    apply run_events_eq. unfold run_state. rewrite SP.
    unfold run_state in ST. rewrite ST, LT, <- app_assoc. reflexivity.
  - split; [exact SP |].
    unfold run_events at 1, run_state. rewrite SP. cbn [snd].
    rewrite LT. apply drop_app_length.
  - rewrite SP. split; [reflexivity |].
    apply run_events_eq. unfold run_state. rewrite SP. cbn. rewrite LT, <- app_assoc.
    reflexivity.
  - inversion LR.
Qed.

End Start.

Lemma In_of_kinds ks e evs :
  Forall (of_kinds ks) evs -> In e evs -> kind e ∈ ks.
Proof.
  intros F Hin. rewrite Forall_forall in F. apply F, list_elem_of_In, Hin.
Qed.

(** Refutes [kind e ∈ ks] for a concrete kind outside [ks]. *)
Ltac not_in_kinds H :=
  exfalso; revert H; unfold of_kinds; cbn;
  apply (bool_decide_unpack _); vm_compute; reflexivity.

Lemma no_kind_of_kinds k ks evs :
  k ∉ ks -> Forall (of_kinds ks) evs -> Forall (fun e => kind e <> k) evs.
Proof.
  intros Hk F. eapply Forall_impl; [exact F |].
  intros e He Heq. unfold of_kinds in He. rewrite Heq in He. contradiction.
Qed.

Ltac kind_absent := apply (bool_decide_unpack _); vm_compute; reflexivity.

Lemma getServerPid_absent os self w :
  w_files w !! pidFile self = None ->
  run_result (getServerPid os self) w = Ret None.
Proof.
  intros Hf. unfold_run. repeat (step; cbn); try reflexivity; congruence.
Qed.


Lemma stopServer_clean os self w :
  (forall h z sig, terminating sig = true -> os_kill os h z sig = None) ->
  (forall h, os_unlink_fault os h (pidFile self) = None) ->
  run_result (stopServer os self) w = Ret true /\
  w_files (run_state (stopServer os self) w) !! pidFile self = None.
Proof.
  intros Hkill Hunl. unfold_run.
  repeat (first [rewrite Hunl | rewrite Hkill by reflexivity | step]; cbn).
  all: split; [reflexivity |].
  all: rewrite ?lookup_delete_eq; auto.
Qed.

(** C7.  In every run of [startServer] whose spawn yields a child with a
    real PID, the effect that follows the spawn is the write of the PID
    file with that PID as decimal text (text that parses back to the PID),
    and no health check comes before it.  When the write succeeds the PID
    file holds exactly that text, whatever it held before, in the state in
    which the rest of [startServer] (the poll and what follows) is run, and
    the first health check comes after it; when the write fails there is
    no health check at all and [startServer] returns [false]. *)
Theorem startServer_pid_written_before_polling
    (os : OS) (self : ServerManager) (config : ServerConfig) (w : World)
    (child : Child) (pid : Z) (cmd : string) (args : list string) (opts : SpawnOptions) :
  In (EvSpawn cmd args opts (Spawned child))
     (run_events (startServer os self config) w) ->
  truthy_pid child = Some pid ->
  exists pre err post,
    run_events (startServer os self config) w
    = pre ++ EvSpawn cmd args opts (Spawned child)
          :: EvWriteFile (pidFile self) (num_toString pid) err :: post /\
    Forall (fun e => kind e <> KFetch) pre /\
    parseInt (trim (num_toString pid)) = Int pid /\
    match err with
    | Some e =>
        Forall (fun e => kind e <> KFetch) post /\
        run_result (startServer os self config) w = Ret false
    | None =>
        w_files (run_state (launch os self config) w)
        = <[pidFile self := num_toString pid]> (w_files w) /\
        startServer os self config w
        = try_catch (settle os self config) start_failed
            (run_state (launch os self config) w) /\
        exists reply rest,
          post = EvDebug ("Server started with PID: " +:+ num_toString pid)
                 :: EvFetch (health_url config +:+ "/") reply :: rest
    end.
Proof.
  intros Hin Hpid.
  pose proof (startServer_run os self config w) as SR.
  pose proof (launch_run os self config w) as LR.
  assert (NF : (KFetch : Kind) ∉ [KDebug; KMkdir])
    by (apply (bool_decide_unpack _); vm_compute; reflexivity).
  set (r := run_result (launch os self config) w) in *.
  set (w1 := run_state (launch os self config) w) in *.
  set (evs := run_events (launch os self config) w) in *.
  clearbody r w1 evs.
  destruct LR as [w1 pre F Hf
                 | w1 pre e F Hf
                 | w1 pre cmd' args' opts' e F Hf
                 | w1 pre cmd' args' opts' c F Hp Hf Hsp
                 | w1 pre cmd' args' opts' c pid' e F Hp Hf
                 | w1 pre cmd' args' opts' c pid' F Hp Hf Hsp];
    destruct SR as [S1 S2]; rewrite S2 in Hin |- *.
  - apply (In_of_kinds _ _ _ F) in Hin. not_in_kinds Hin.
  - apply in_app_or in Hin as [Hin | Hin].
    + apply (In_of_kinds _ _ _ F) in Hin. not_in_kinds Hin.
    + cbn in Hin. in_cases.
  - rewrite <- app_assoc in Hin.
    apply in_app_or in Hin as [Hin | Hin].
    + apply (In_of_kinds _ _ _ F) in Hin. not_in_kinds Hin.
    + cbn in Hin. in_cases.
  - destruct (settle_trace os self config w1)
      as [_ FS].
    rewrite <- app_assoc in Hin.
    apply in_app_or in Hin as [Hin | Hin].
    + apply (In_of_kinds _ _ _ F) in Hin. not_in_kinds Hin.
    + cbn in Hin. destruct Hin as [Hin | Hin].
      * injection Hin as -> -> -> ->. congruence.
      * apply (In_of_kinds _ _ _ FS) in Hin. not_in_kinds Hin.
  - rewrite <- app_assoc in Hin.
    apply in_app_or in Hin as [Hin | Hin].
    + apply (In_of_kinds _ _ _ F) in Hin. not_in_kinds Hin.
    + cbn in Hin. destruct Hin as [Hin | Hin]; [| in_cases].
      injection Hin as -> -> -> ->.
      assert (pid' = pid) as -> by congruence.
      exists pre, (Some e), [EvDebug ("Failed to start server: " +:+ error_text e)].
      split; [rewrite <- app_assoc; reflexivity |].
      split; [apply (no_kind_of_kinds _ _ _ NF F) |].
      split; [apply parseInt_num_toString |].
      split; [no_kind | exact S1].
  - destruct (settle_trace os self config w1)
      as [_ FS].
    destruct (settle_first os self config w1)
      as (reply & rest & SF).
    rewrite <- app_assoc in Hin.
    apply in_app_or in Hin as [Hin | Hin].
    + apply (In_of_kinds _ _ _ F) in Hin. not_in_kinds Hin.
    + cbn in Hin. destruct Hin as [Hin | [Hin | [Hin | Hin]]]; try discriminate Hin.
      * injection Hin as -> -> -> ->.
        assert (pid' = pid) as -> by congruence.
        exists pre, None. eexists.
        split; [rewrite <- app_assoc; cbn; reflexivity |].
        split; [apply (no_kind_of_kinds _ _ _ NF F) |].
        split; [apply parseInt_num_toString |].
        split; [exact Hf |].
        split; [exact S1 |].
        exists reply, rest. rewrite SF. reflexivity.
      * apply (In_of_kinds _ _ _ FS) in Hin. not_in_kinds Hin.
Qed.


(** C1, as the code has it.  While the health endpoint never reports
    healthy, [startServer] returns [false].  When a child was spawned (and
    its PID, if any, saved), the poll answers [false], the final state is
    the one [stopServer] leaves when run right after the log line of the
    failure, and the PID file read by that [stopServer] holds the decimal
    text of the child's PID.  If moreover no termination signal raises and
    the deletion of the PID file does not fail, the PID file is absent
    afterwards and [getServerPid] returns none. *)
Theorem startServer_rollback
    (os : OS) (self : ServerManager) (config : ServerConfig) (w : World) :
  (forall h, healthy (os_fetch os h (health_url config +:+ "/")) = false) ->
  run_result (startServer os self config) w = Ret false /\
  forall child,
    run_result (launch os self config) w = Ret (Some child) ->
    let w1 := run_state (launch os self config) w in
    let w2 := emit (EvDebug "Server failed to start properly")
                (run_state (waitForServerReady os (health_url config) None) w1) in
    run_result (waitForServerReady os (health_url config) None) w1 = Ret false /\
    run_state (startServer os self config) w = run_state (stopServer os self) w2 /\
    (forall pid, truthy_pid child = Some pid ->
       w_files w2 !! pidFile self = Some (num_toString pid) /\
       parseInt (trim (num_toString pid)) = Int pid) /\
    ((forall h z sig, terminating sig = true -> os_kill os h z sig = None) ->
     (forall h, os_unlink_fault os h (pidFile self) = None) ->
     w_files (run_state (startServer os self config) w) !! pidFile self = None /\
     run_result (getServerPid os self) (run_state (startServer os self config) w)
     = Ret None).
Proof.
  intros Hbad.
  pose proof (startServer_run os self config w) as SR.
  pose proof (launch_run os self config w) as LR.
  assert (Hwait : forall w0,
            run_result (waitForServerReady os (health_url config) None) w0 = Ret false).
  { intros w0. apply waitForServerReady_unhealthy, Hbad. }
  assert (Hsettle : forall w0,
            run_result (try_catch (settle os self config) start_failed) w0 = Ret false /\
            run_state (try_catch (settle os self config) start_failed) w0
            = run_state (stopServer os self)
                (emit (EvDebug "Server failed to start properly")
                   (run_state (waitForServerReady os (health_url config) None) w0))).
  { intros w0. destruct (settle_run os self config w0) as [[R _] | (_ & R & S)].
    - rewrite Hwait in R. discriminate R.
    - auto. }
  split.
  - destruct (run_result (launch os self config) w) as [[c |] | e |].
    + destruct SR as [S1 _]. unfold run_result. rewrite S1. apply Hsettle.
    + destruct SR as [S1 _]. unfold run_result. rewrite S1. reflexivity.
    + apply SR.
    + destruct SR.
  - intros child Hl w1 w2. rewrite Hl in SR. destruct SR as [S1 _].
    assert (Hstate : run_state (startServer os self config) w
                     = run_state (stopServer os self) w2).
    { unfold run_state at 1. rewrite S1. apply Hsettle. }
    split; [apply Hwait |]. split; [exact Hstate |]. split.
    + intros pid Hpid. split; [| apply parseInt_num_toString].
      assert (Hw2 : w_files w2 = w_files w1).
      { pose proof (emits_waitForServerReady os (health_url config) None w1)
          as (evs & _ & F & _ & K).
        subst w2. cbn. apply K.
        eapply Forall_impl; [exact F |].
        intros e He. destruct e; try reflexivity; not_in_kinds He. }
      rewrite Hw2. subst w1.
      set (r := run_result (launch os self config) w) in *.
      set (w1 := run_state (launch os self config) w) in *.
      set (evs := run_events (launch os self config) w) in *.
      clearbody r w1 evs. subst r.
      inversion LR; subst; try congruence.
      match goal with H : w_files w1 = _ |- _ => rewrite H end.
      assert (pid0 = pid) as -> by congruence.
      apply lookup_insert_eq.
    + intros Hkill Hunl. rewrite Hstate.
      destruct (stopServer_clean os self w2 Hkill Hunl) as [_ Hnone].
      split; [exact Hnone |]. apply getServerPid_absent, Hnone.
Qed.

Lemma startServer_pid_written_before_polling_witness :
  exists pre err post,
    run_events (startServer Ex.os_healthy Ex.self Ex.config) Ex.fresh
    = pre ++ EvSpawn "yarn" ["start"%string]
               (spawn_options Ex.os_healthy Ex.config "/opt/happy-server")
               (Spawned Ex.child4242)
          :: EvWriteFile (pidFile Ex.self) (num_toString 4242) err :: post /\
    Forall (fun e => kind e <> KFetch) pre /\
    parseInt (trim (num_toString 4242)) = Int 4242 /\
    match err with
    | Some e =>
        Forall (fun e => kind e <> KFetch) post /\
        run_result (startServer Ex.os_healthy Ex.self Ex.config) Ex.fresh = Ret false
    | None =>
        w_files (run_state (launch Ex.os_healthy Ex.self Ex.config) Ex.fresh)
        = <[pidFile Ex.self := num_toString 4242]> (w_files Ex.fresh) /\
        startServer Ex.os_healthy Ex.self Ex.config Ex.fresh
        = try_catch (settle Ex.os_healthy Ex.self Ex.config) start_failed
            (run_state (launch Ex.os_healthy Ex.self Ex.config) Ex.fresh) /\
        exists reply rest,
          post = EvDebug ("Server started with PID: " +:+ num_toString 4242)
                 :: EvFetch (health_url Ex.config +:+ "/") reply :: rest
    end.
Proof.
  apply (startServer_pid_written_before_polling
           Ex.os_healthy Ex.self Ex.config Ex.fresh Ex.child4242 4242).
  - vm_compute. right. right. left. reflexivity.
  - reflexivity.
Defined.


Lemma startServer_rollback_witness :
  run_result (startServer Ex.os_stubborn Ex.self Ex.config) Ex.fresh = Ret false /\
  w_files (run_state (startServer Ex.os_stubborn Ex.self Ex.config) Ex.fresh)
    !! pidFile Ex.self = None /\
  run_result (getServerPid Ex.os_stubborn Ex.self)
             (run_state (startServer Ex.os_stubborn Ex.self Ex.config) Ex.fresh)
  = Ret None.
Proof.
  destruct (startServer_rollback Ex.os_stubborn Ex.self Ex.config Ex.fresh)
    as [Hfalse Hrest].
  - intros h. reflexivity.
  - split; [exact Hfalse |].
    destruct (Hrest Ex.child4242) as (_ & _ & _ & Hclean).
    + vm_compute. reflexivity.
    + apply Hclean.
      * intros h z sig _. destruct sig; reflexivity.
      * intros h. reflexivity.
Defined.

(** C1 as stated fails.  Twice the health endpoint never answers with
    success and [startServer] returns [false], yet the PID file still
    records the child 4242 and [getServerPid] afterwards returns 4242: once
    because the graceful signal of the rollback raised (so the deletion was
    skipped), once because the deletion of the PID file failed. *)
Lemma startServer_rollback_counterexample :
  ((forall h, healthy (os_fetch Ex.os_term_refused h (health_url Ex.config +:+ "/")) = false) /\
   run_result (startServer Ex.os_term_refused Ex.self Ex.config) Ex.fresh = Ret false /\
   w_files (run_state (startServer Ex.os_term_refused Ex.self Ex.config) Ex.fresh)
     !! pidFile Ex.self = Some "4242"%string /\
   run_result (getServerPid Ex.os_term_refused Ex.self)
              (run_state (startServer Ex.os_term_refused Ex.self Ex.config) Ex.fresh)
   = Ret (Some (Int 4242))) /\
  ((forall h, healthy (os_fetch Ex.os_undeletable h (health_url Ex.config +:+ "/")) = false) /\
   run_result (startServer Ex.os_undeletable Ex.self Ex.config) Ex.fresh = Ret false /\
   w_files (run_state (startServer Ex.os_undeletable Ex.self Ex.config) Ex.fresh)
     !! pidFile Ex.self = Some "4242"%string /\
   run_result (getServerPid Ex.os_undeletable Ex.self)
              (run_state (startServer Ex.os_undeletable Ex.self Ex.config) Ex.fresh)
   = Ret (Some (Int 4242))).
Proof.
  split; (split; [intros h; reflexivity |]);
    (split; [vm_compute; reflexivity |]);
    (split; vm_compute; reflexivity).
Qed.

Lemma findServerPath_from_run os paths w :
  findServerPath_from os paths w =
  match List.find (accepted_dir os) paths with
  | Some p => (Ret (Some p), emit (EvDebug ("Found server at: " +:+ p)) w)
  | None => (Ret None, w)
  end.
Proof.
  induction paths as [| p paths IH]; cbn [findServerPath_from List.find].
  - reflexivity.
  - unfold accepted_dir at 1.
    destruct (os_manifest os p) as [m |]; [| exact IH].
    destruct (accepts_manifest m); [reflexivity | exact IH].
Qed.

(** [findServerPath] answers the first candidate, in the order of the
    list, whose manifest is accepted, logs it, and answers [null] exactly
    when no candidate is accepted; it changes no file. *)
Theorem findServerPath_first_accepted (os : OS) (w : World) :
  run_result (findServerPath os) w
  = Ret (List.find (accepted_dir os) (possiblePaths os)) /\
  run_events (findServerPath os) w
  = match List.find (accepted_dir os) (possiblePaths os) with
    | Some p => [EvDebug ("Found server at: " +:+ p)]
    | None => []
    end /\
  w_files (run_state (findServerPath os) w) = w_files w /\
  (forall p, run_result (findServerPath os) w = Ret (Some p) ->
     p <> ""%string /\
     exists before after,
       possiblePaths os = before ++ p :: after /\
       Forall (fun q => accepted_dir os q = false) before /\
       accepted_dir os p = true) /\
  (run_result (findServerPath os) w = Ret None <->
   Forall (fun q => accepted_dir os q = false) (possiblePaths os)).
Proof.
  unfold run_result, run_events, run_state, findServerPath.
  rewrite findServerPath_from_run.
  assert (Hne : Forall (fun q => q <> ""%string) (possiblePaths os)).
  { unfold possiblePaths. apply Forall_forall. intros q Hq.
    apply list_elem_of_omap in Hq as (o & _ & Ho).
    destruct o as [s |]; [| discriminate]. cbn in Ho.
    destruct s; [discriminate |]. injection Ho as <-. discriminate. }
  revert Hne. generalize (possiblePaths os) as paths. intros paths Hne.
  assert (Hfind : forall p, List.find (accepted_dir os) paths = Some p ->
            exists before after, paths = before ++ p :: after /\
              Forall (fun q => accepted_dir os q = false) before /\
              accepted_dir os p = true).
  { clear Hne. induction paths as [| q paths IH]; intros p; cbn; [discriminate |].
    destruct (accepted_dir os q) eqn:Hq.
    - intros [= ->]. exists [], paths. repeat split; auto.
    - intros Hf. destruct (IH p Hf) as (b & a & -> & Fb & Hp).
      exists (q :: b), a. repeat split; auto. }
  assert (Hnone : List.find (accepted_dir os) paths = None <->
                  Forall (fun q => accepted_dir os q = false) paths).
  { clear. induction paths as [| q paths IH]; cbn.
    - split; auto.
    - destruct (accepted_dir os q) eqn:Hq.
      + split; [discriminate |]. intros H. apply Forall_cons_1 in H as [H _]. congruence.
      + rewrite IH. split; [intros; constructor; auto |].
        intros H. apply Forall_cons_1 in H as [_ H]. exact H. }
  destruct (List.find (accepted_dir os) paths) as [p |] eqn:Hf; cbn.
  - rewrite drop_app_length.
    split; [reflexivity |]. split; [reflexivity |]. split; [reflexivity |].
    split.
    + intros q [= <-]. split; [| apply Hfind; reflexivity].
      destruct (Hfind p eq_refl) as (b & a & E & _).
      rewrite Forall_forall in Hne. apply Hne. rewrite E.
      apply elem_of_app. right. left.
    + split; [discriminate |]. intros H. apply Hnone in H. discriminate.
  - rewrite drop_all.
    split; [reflexivity |]. split; [reflexivity |]. split; [reflexivity |].
    split; [intros q [=] |].
    split; [intros _; apply Hnone; reflexivity | reflexivity].
Qed.

Lemma possiblePaths_override_last os :
  possiblePaths os
  = omap truthy_opt_str
      [Some (os_resolve os "../../../happy-server");
       Some (os_resolve os "../../../");
       Some (os_resolve os "../../happy-server")]
    ++ match os_env os !! "HAPPY_SERVER_PATH"%string with
       | Some p => if truthy_str p then [p] else []
       | None => []
       end.
Proof.
  unfold possiblePaths.
  change [Some (os_resolve os "../../../happy-server");
          Some (os_resolve os "../../../");
          Some (os_resolve os "../../happy-server");
          os_env os !! "HAPPY_SERVER_PATH"%string]
    with ([Some (os_resolve os "../../../happy-server");
           Some (os_resolve os "../../../");
           Some (os_resolve os "../../happy-server")]
          ++ [os_env os !! "HAPPY_SERVER_PATH"%string]).
  rewrite omap_app. f_equal.
  destruct (os_env os !! "HAPPY_SERVER_PATH"%string) as [p |]; [| reflexivity].
  cbn. destruct (truthy_str p); reflexivity.
Qed.

(** ** More on the readiness poll *)

Lemma replies_app a b : replies (a ++ b) = replies a ++ replies b.
Proof. apply omap_app. Qed.

Lemma replies_quiet l :
  Forall (fun e => kind e <> KFetch) l -> replies l = [].
Proof.
  induction 1 as [| e l He _ IH]; [reflexivity |].
  unfold replies in *. cbn. rewrite IH. destruct e; try reflexivity.
  exfalso. apply He. reflexivity.
Qed.

Lemma isServerRunning_healthy_state os url w :
  healthy (os_fetch os (w_trace w) (url +:+ "/")) = true ->
  w_trace (run_state (isServerRunning os (Some url)) w)
  = w_trace w ++ [EvFetch (url +:+ "/") (os_fetch os (w_trace w) (url +:+ "/"))].
Proof. intros H. apply (isServerRunning_healthy os url w H). Qed.

Lemma waitLoop_poll os fuel url start timeout w :
  match waitLoop os fuel url start timeout w with
  | (Ret b, w') => exists evs, PollRun url start timeout w b w' evs
  | (Throw _, _) => False
  | (Diverge, _) => True
  end.
Proof.
  revert w. induction fuel as [| fuel IH]; intros w; [exact I |].
  rewrite waitLoop_round.
  destruct (Z.ltb_spec (w_now w - start) timeout) as [Hlt | Hge].
  2:{ exists []. constructor.
      - rewrite app_nil_r. reflexivity.
      - constructor.
      - discriminate.
      - intros _. split; [constructor | lia].
      - cbn. lia.
      - lia.
      - reflexivity.
      - reflexivity. }
  destruct (isServerRunning_run os (Some url) w) as (R & N & Fi & Pr & rest & T & Frest).
  change (default _ (Some url)) with url in *.
  pose proof (reply_time_bounds (os_fetch os (w_trace w) (url +:+ "/"))) as B.
  set (reply := os_fetch os (w_trace w) (url +:+ "/")) in *.
  set (w1 := run_state (isServerRunning os (Some url)) w) in *.
  assert (Qrest : Forall (fun e => kind e <> KFetch) rest).
  { eapply Forall_impl; [exact Frest |]. intros e He Hk. unfold of_kinds in He.
    rewrite Hk in He. revert He. apply (bool_decide_unpack _). vm_compute. reflexivity. }
  destruct (healthy reply) eqn:Hh.
  - assert (rest = []) as ->.
    { pose proof (isServerRunning_healthy_state os url w Hh) as T'.
      fold w1 reply in T'. rewrite T in T'. apply app_inv_head in T'.
      injection T' as ->. reflexivity. }
    exists [EvFetch (url +:+ "/") reply].
    constructor.
    + exact T.
    + repeat constructor.
    + intros _. exists [], reply, (url +:+ "/")%string.
      split; [reflexivity |]. split; [constructor |]. split; [exact Hh | reflexivity].
    + discriminate.
    + cbn. lia.
    + lia.
    + exact Fi.
    + exact Pr.
  - specialize (IH (after_sleep os 500 w1)).
    destruct (waitLoop os fuel url start timeout (after_sleep os 500 w1))
      as [[b | e |] w'] eqn:E; auto.
    destruct IH as [evs [T' U' Ht Hf Hc Hk Hfs Hp]].
    pose proof (after_sleep_now os 500 w1) as S.
    assert (Tsl : w_trace (after_sleep os 500 w1) = w_trace w1 ++ [EvSleep 500])
      by reflexivity.
    assert (Fsl : w_files (after_sleep os 500 w1) = w_files w1) by reflexivity.
    assert (Psl : w_serverProcess (after_sleep os 500 w1) = w_serverProcess w1)
      by reflexivity.
    exists (EvFetch (url +:+ "/") reply :: rest ++ [EvSleep 500] ++ evs).
    assert (Rp : replies (EvFetch (url +:+ "/") reply :: rest ++ [EvSleep 500] ++ evs)
                 = reply :: replies evs).
    { change (EvFetch (url +:+ "/") reply :: rest ++ [EvSleep 500] ++ evs)
        with ([EvFetch (url +:+ "/") reply] ++ rest ++ [EvSleep 500] ++ evs).
      rewrite !replies_app, (replies_quiet rest Qrest). reflexivity. }
    constructor.
    + rewrite T', Tsl, T, <- !app_assoc. reflexivity.
    + constructor; [reflexivity |]. apply Forall_app. split.
      * eapply Forall_impl; [exact Qrest |]. intros e He. destruct e; auto.
        exfalso. apply He. reflexivity.
      * constructor; [exact I | exact U'].
    + intros Hb. destruct (Ht Hb) as (pre & r0 & u & E1 & F1 & H1 & L1).
      exists (reply :: pre), r0, u. rewrite Rp, E1. repeat split; auto.
      replace (EvFetch (url +:+ "/") reply :: rest ++ [EvSleep 500] ++ evs)
        with ((EvFetch (url +:+ "/") reply :: rest ++ [EvSleep 500]) ++ evs)
        by (cbn; rewrite <- app_assoc; reflexivity).
      destruct evs as [| e0 evs0]; [discriminate L1 |].
      rewrite last_app. rewrite L1. reflexivity.
    + intros Hb. destruct (Hf Hb) as [F1 H1]. rewrite Rp. split; [| exact H1].
      constructor; auto.
    + rewrite Rp. cbn [length]. rewrite Nat2Z.inj_succ.
      change (Z.max 0 500) with 500 in S. lia.
    + change (Z.max 0 500) with 500 in S. lia.
    + rewrite Hfs, Fsl. exact Fi.
    + rewrite Hp, Psl. exact Pr.
Qed.

Lemma waitForServerReady_poll os url timeout w :
  exists b,
    run_result (waitForServerReady os url timeout) w = Ret b /\
    PollRun url (w_now w) (default 15000 timeout) w b
            (run_state (waitForServerReady os url timeout) w)
            (run_events (waitForServerReady os url timeout) w).
Proof.
  destruct (waitForServerReady_returns os url timeout w) as [b Hb].
  exists b. split; [exact Hb |].
  unfold run_result, run_events, run_state in *.
  unfold waitForServerReady, bind, Date_now in *.
  pose proof (waitLoop_poll os (poll_fuel (default 15000 timeout)) url (w_now w)
                (default 15000 timeout) w) as P.
  destruct (waitLoop os _ url (w_now w) (default 15000 timeout) w) as [r w'].
  cbn [fst snd] in *. subst r. destruct P as [evs P].
  rewrite (poll_trace _ _ _ _ _ _ _ P), drop_app_length. exact P.
Qed.

Lemma existsb_none {A} (f : A -> bool) (l : list A) :
  Forall (fun x => f x = false) l -> existsb f l = false.
Proof.
  induction 1 as [| x l Hx _ IH]; [reflexivity |]. cbn. rewrite Hx. exact IH.
Qed.

Lemma poll_existsb url start timeout w b w' evs :
  PollRun url start timeout w b w' evs -> b = existsb healthy (replies evs).
Proof.
  intros [_ _ Ht Hf _ _ _ _]. destruct b.
  - destruct (Ht eq_refl) as (pre & r0 & u & E & _ & H0 & _).
    rewrite E, existsb_app. cbn. rewrite H0, orb_true_r. reflexivity.
  - destruct (Hf eq_refl) as [F _]. symmetry. apply existsb_none. exact F.
Qed.

(** The poll answers [true] exactly when one of its health checks
    succeeded, and then that check is its last effect and every earlier
    one failed; it answers [false] only once the timeout has passed; it
    changes no file. *)
Theorem waitForServerReady_verdict
    (os : OS) (url : string) (timeout : option Z) (w : World) :
  exists b,
    run_result (waitForServerReady os url timeout) w = Ret b /\
    b = existsb healthy (replies (run_events (waitForServerReady os url timeout) w)) /\
    (b = true ->
     exists pre r0 u,
       replies (run_events (waitForServerReady os url timeout) w) = pre ++ [r0] /\
       Forall (fun r => healthy r = false) pre /\ healthy r0 = true /\
       last (run_events (waitForServerReady os url timeout) w) = Some (EvFetch u r0)) /\
    (b = false ->
     w_now w + default 15000 timeout
     <= w_now (run_state (waitForServerReady os url timeout) w)) /\
    w_files (run_state (waitForServerReady os url timeout) w) = w_files w.
Proof.
  destruct (waitForServerReady_poll os url timeout w) as (b & R & P).
  exists b. split; [exact R |].
  destruct P as [T U Ht Hf Hc Hk Hfs Hp].
  split; [| split; [exact Ht | split; [| exact Hfs]]].
  - destruct b.
    + destruct (Ht eq_refl) as (pre & r0 & u & E & _ & H0 & _).
      rewrite E, existsb_app. cbn. rewrite H0, orb_true_r. reflexivity.
    + destruct (Hf eq_refl) as [F _]. symmetry. clear - F.
      induction F as [| r l Hr _ IH]; [reflexivity |]. cbn. rewrite Hr. exact IH.
  - intros Hb. apply (Hf Hb).
Qed.

(** The poll makes a bounded number of health checks (at most 30 with the
    default timeout), all of them to the address it was given, and none at
    all when the timeout is not positive. *)
Theorem waitForServerReady_bounded_checks
    (os : OS) (url : string) (timeout : option Z) (w : World) :
  500 * Z.of_nat (length (replies (run_events (waitForServerReady os url timeout) w)))
  <= Z.max 0 (default 15000 timeout + 499) /\
  (timeout = None ->
   (length (replies (run_events (waitForServerReady os url timeout) w)) <= 30)%nat) /\
  (default 15000 timeout <= 0 ->
   run_result (waitForServerReady os url timeout) w = Ret false /\
   run_events (waitForServerReady os url timeout) w = []) /\
  Forall (fun e => match e with EvFetch u _ => u = (url +:+ "/")%string | _ => True end)
         (run_events (waitForServerReady os url timeout) w).
Proof.
  destruct (waitForServerReady_poll os url timeout w) as (b & R & P).
  destruct P as [T U Ht Hf Hc Hk Hfs Hp].
  assert (Hc' : 500 * Z.of_nat (length (replies (run_events (waitForServerReady os url timeout) w)))
                <= Z.max 0 (default 15000 timeout + 499)).
  { replace (default 15000 timeout + 499)
      with (w_now w + default 15000 timeout - w_now w + 499) by lia. exact Hc. }
  split; [exact Hc' |]. split; [| split; [| exact U]].
  - intros ->. cbn [default] in Hc'. change (default 15000 None) with 15000 in Hc'. lia.
  - intros Hle.
    assert (E : waitForServerReady os url timeout w = (Ret false, w)).
    { unfold waitForServerReady, bind, Date_now, poll_fuel.
      replace (Nat.add (Z.to_nat (default 15000 timeout / 500)) 2)
        with (S (Nat.add (Z.to_nat (default 15000 timeout / 500)) 1)) by lia.
      rewrite waitLoop_round.
      destruct (Z.ltb_spec (w_now w - w_now w) (default 15000 timeout)); [lia | reflexivity]. }
    unfold run_result, run_events, run_state. rewrite E. cbn.
    split; [reflexivity | apply drop_all].
Qed.

(** ** Every operation answers *)

Section Answers.

Variable os : OS.
Variable self : ServerManager.






End Answers.

(** ** More on starting *)

Section Starting.

Variable os : OS.
Variable self : ServerManager.
Variable config : ServerConfig.

Lemma truthy_opt_str_idem o : truthy_opt_str (truthy_opt_str o) = truthy_opt_str o.
Proof. destruct o as [[| c s] |]; reflexivity. Qed.

Lemma possiblePaths_nonempty p : In p (possiblePaths os) -> truthy_opt_str (Some p) = Some p.
Proof.
  intros Hin. apply list_elem_of_In in Hin. unfold possiblePaths in Hin.
  apply list_elem_of_omap in Hin as (o & _ & Ho).
  rewrite <- Ho. apply truthy_opt_str_idem.
Qed.

Lemma resolved_dir_truthy : truthy_opt_str (resolved_dir os config) = resolved_dir os config.
Proof.
  unfold resolved_dir.
  destruct (truthy_opt_str (serverPath config)) as [p |] eqn:E.
  - rewrite <- E. apply truthy_opt_str_idem.
  - destruct (List.find _ _) as [p |] eqn:F; [| reflexivity].
    apply find_some in F as [Hin _]. apply possiblePaths_nonempty, Hin.
Qed.

Lemma resolve_path_run w :
  resolve_path os config w
  = (Ret (resolved_dir os config), extend_trace (found_log os config) w).
Proof.
  unfold resolve_path, resolved_dir, found_log, findServerPath, extend_trace.
  destruct (truthy_opt_str (serverPath config)) as [p |].
  - rewrite app_nil_r. destruct w. reflexivity.
  - rewrite findServerPath_from_run.
    destruct (List.find _ _) as [p |]; [reflexivity |].
    rewrite app_nil_r. destruct w. reflexivity.
Qed.

(** When no directory is configured and none is discovered, [startServer]
    answers [false] after its two log lines: it creates no directory,
    starts no program and changes no file. *)
Theorem startServer_no_directory (w : World) :
  resolved_dir os config = None ->
  run_result (startServer os self config) w = Ret false /\
  run_events (startServer os self config) w
  = [EvDebug "Starting Happy server...";
     EvDebug "Could not find happy-server directory"] /\
  w_files (run_state (startServer os self config) w) = w_files w.
Proof.
  intros Hnone.
  assert (Hlog : found_log os config = []).
  { unfold found_log, resolved_dir in *.
    destruct (truthy_opt_str (serverPath config)); [discriminate |].
    rewrite Hnone. reflexivity. }
  assert (E : startServer os self config w
              = (Ret false,
                 emit (EvDebug "Could not find happy-server directory")
                      (extend_trace []
                         (emit (EvDebug "Starting Happy server...") w)))).
  { unfold startServer. fold (resolve_path os config).
    unfold try_catch, bind at 1 2. unfold log_debug at 1.
    rewrite resolve_path_run, Hnone, Hlog. reflexivity. }
  unfold run_result, run_events, run_state. rewrite E. cbn.
  rewrite app_nil_r, <- app_assoc, drop_app_length. auto.
Qed.

Lemma launch_spawn w cmd args opts res :
  In (EvSpawn cmd args opts res) (run_events (launch os self config) w) ->
  exists dir,
    resolved_dir os config = Some dir /\
    cmd = "yarn"%string /\ args = ["start"%string] /\
    opts = spawn_options os config dir.
Proof.
  unfold run_events, run_state.
  destruct (launch os self config w) as [r w'] eqn:E. cbn [snd].
  revert E. unfold launch. fold (resolve_path os config).
  unfold bind at 1. unfold log_debug at 1. unfold bind at 1.
  rewrite resolve_path_run. rewrite resolved_dir_truthy.
  assert (Hd : Forall (of_kinds [KDebug]) (found_log os config)).
  { unfold found_log. repeat (step; try constructor); try constructor; event_ok. }
  set (dbg := found_log os config) in *. clearbody dbg.
  destruct (resolved_dir os config) as [dir |]; cbn.
  - unfold bind, log_debug, fs_mkdir, spawn, assign_serverProcess, fs_writeFile,
      ret, of_fault.
    repeat (step; cbn); intros [= <- <-]; cbn;
      rewrite <- ?app_assoc; rewrite ?drop_app_length; cbn;
      intros [Hin | Hin]; try discriminate Hin;
      apply in_app_or in Hin as [Hin | Hin];
      try (apply (In_of_kinds _ _ _ Hd) in Hin; not_in_kinds Hin);
      cbn in Hin; in_cases;
      repeat match goal with
             | H : EvSpawn _ _ _ _ = EvSpawn _ _ _ _ |- _ =>
                 injection H as <- <- <- <-
             end;
      try (exists dir; auto).
  - intros [= <- <-]. cbn. rewrite <- ?app_assoc, ?drop_app_length. cbn.
    intros [Hin | Hin]; [discriminate Hin |].
    apply in_app_or in Hin as [Hin | Hin].
    + apply (In_of_kinds _ _ _ Hd) in Hin. not_in_kinds Hin.
    + cbn in Hin. in_cases.
Qed.

Lemma count_kind_app k a b :
  count_kind k (a ++ b) = (count_kind k a + count_kind k b)%nat.
Proof. unfold count_kind. rewrite filter_app, length_app. reflexivity. Qed.

Lemma count_kind_absent k ks evs :
  k ∉ ks -> Forall (of_kinds ks) evs -> count_kind k evs = 0%nat.
Proof.
  intros Hk F. unfold count_kind. induction F as [| e l He _ IH]; [reflexivity |].
  rewrite filter_cons. destruct (decide (kind e = k)) as [E | E]; [| exact IH].
  exfalso. apply Hk. rewrite <- E. exact He.
Qed.

(** [startServer] starts one program at most, and that one is
    [yarn start], detached, with piped output, in the configured directory
    when one is configured and in the discovered one otherwise. *)
Theorem startServer_spawns_once_in_resolved_directory (w : World) :
  (forall cmd args opts res,
     In (EvSpawn cmd args opts res) (run_events (startServer os self config) w) ->
     exists dir,
       resolved_dir os config = Some dir /\
       cmd = "yarn"%string /\ args = ["start"%string] /\
       so_cwd opts = dir /\ so_detached opts = true /\
       so_stdio opts = [StdioIgnore; StdioPipe; StdioPipe]) /\
  (count_kind KSpawn (run_events (startServer os self config) w) <= 1)%nat /\
  (forall p, serverPath config = Some p -> p <> ""%string ->
     resolved_dir os config = Some p) /\
  (truthy_opt_str (serverPath config) = None ->
     resolved_dir os config = List.find (accepted_dir os) (possiblePaths os)).
Proof.
  pose proof (startServer_run os self config w) as SR.
  pose proof (launch_run os self config w) as LR.
  pose proof (launch_spawn w) as LS.
  assert (Hs : forall w1, count_kind KSpawn
              (run_events (try_catch (settle os self config) start_failed) w1) = 0%nat
              /\ forall cmd args opts res,
                   ~ In (EvSpawn cmd args opts res)
                        (run_events (try_catch (settle os self config) start_failed) w1)).
  { intros w1. destruct (settle_trace os self config w1) as [_ FS]. split.
    - eapply count_kind_absent; [| exact FS]. kind_absent.
    - intros cmd args opts res Hin. apply (In_of_kinds _ _ _ FS) in Hin.
      not_in_kinds Hin. }
  assert (Hl : (count_kind KSpawn (run_events (launch os self config) w) <= 1)%nat).
  { clear SR LS.
    set (r := run_result (launch os self config) w) in *.
    set (w1 := run_state (launch os self config) w) in *.
    set (evs := run_events (launch os self config) w) in *.
    clearbody r w1 evs.
    assert (Hz : forall pre, Forall (of_kinds [KDebug; KMkdir]) pre ->
                   count_kind KSpawn pre = 0%nat).
    { intros pre F. eapply count_kind_absent; [| exact F]. kind_absent. }
    assert (Hz' : forall pre, Forall (of_kinds [KDebug]) pre ->
                   count_kind KSpawn pre = 0%nat).
    { intros pre F. eapply count_kind_absent; [| exact F]. kind_absent. }
    destruct LR; rewrite ?count_kind_app; rewrite ?Hz, ?Hz' by assumption; vm_compute; lia. }
  split; [| split; [| split]].
  - intros cmd args opts res Hin.
    assert (Hin' : In (EvSpawn cmd args opts res) (run_events (launch os self config) w)).
    { destruct (run_result (launch os self config) w) as [[c |] | e |];
        [| | | destruct SR]; destruct SR as [_ S2]; rewrite S2 in Hin.
      - apply in_app_or in Hin as [Hin | Hin]; [exact Hin |].
        exfalso. eapply Hs, Hin.
      - exact Hin.
      - apply in_app_or in Hin as [Hin | Hin]; [exact Hin |].
        cbn in Hin. in_cases. }
    destruct (LS _ _ _ _ Hin') as (dir & Hd & -> & -> & ->).
    exists dir. repeat split; auto.
  - destruct (run_result (launch os self config) w) as [[c |] | e |];
      [| | | destruct SR]; destruct SR as [_ S2]; rewrite S2, ?count_kind_app.
    + destruct (Hs (run_state (launch os self config) w)) as [-> _]. lia.
    + exact Hl.
    + change (count_kind KSpawn [EvDebug _]) with 0%nat. lia.
  - intros p Hp Hne. unfold resolved_dir. rewrite Hp. cbn.
    destruct p; [contradiction | reflexivity].
  - intros Hn. unfold resolved_dir. rewrite Hn. reflexivity.
Qed.



Lemma startServer_true_run (w : World) :
  run_result (startServer os self config) w = Ret true ->
  exists child cmd args opts,
    In (EvSpawn cmd args opts (Spawned child))
       (run_events (startServer os self config) w) /\
    (exists pre,
       run_events (startServer os self config) w
       = pre ++ [EvDebug "Server is ready and healthy"; EvUnref child]) /\
    existsb healthy (replies (run_events (startServer os self config) w)) = true /\
    Forall (of_kinds [KDebug; KMkdir; KSpawn; KWrite; KFetch; KSleep; KUnref])
           (run_events (startServer os self config) w) /\
    match truthy_pid child with
    | Some pid =>
        w_files (run_state (startServer os self config) w)
        = <[pidFile self := num_toString pid]> (w_files w)
    | None => w_files (run_state (startServer os self config) w) = w_files w
    end.
Proof.
  intros Htrue.
  pose proof (startServer_run os self config w) as SR.
  pose proof (launch_run os self config w) as LR.
  pose proof (emits_launch os self config w) as EL.
  apply extends_run_events in EL. destruct EL as [_ FL].
  set (r := run_result (launch os self config) w) in *.
  set (w1 := run_state (launch os self config) w) in *.
  set (evs := run_events (launch os self config) w) in *.
  clearbody r w1 evs.
  assert (Hready : forall child,
            w_serverProcess w1 = Some child ->
            startServer os self config w
            = try_catch (settle os self config) start_failed w1 ->
            run_events (startServer os self config) w
            = evs ++ run_events (try_catch (settle os self config) start_failed) w1 ->
            (exists pre,
               run_events (startServer os self config) w
               = pre ++ [EvDebug "Server is ready and healthy"; EvUnref child]) /\
            existsb healthy (replies (run_events (startServer os self config) w)) = true /\
            Forall (of_kinds [KDebug; KMkdir; KSpawn; KWrite; KFetch; KSleep; KUnref])
                   (run_events (startServer os self config) w) /\
            w_files (run_state (startServer os self config) w) = w_files w1).
  { intros child Hsp S1 S2.
    unfold run_result in Htrue. rewrite S1 in Htrue.
    assert (Q : run_events (try_catch (settle os self config) start_failed) w1
                = run_events (waitForServerReady os (health_url config) None) w1
                  ++ [EvDebug "Server is ready and healthy"; EvUnref child] /\
                run_result (waitForServerReady os (health_url config) None) w1 = Ret true /\
                w_files (run_state (try_catch (settle os self config) start_failed) w1)
                = w_files w1).
    { destruct (waitForServerReady_poll os (health_url config) None w1) as (b & R & P).
      destruct P as [T _ _ _ _ _ Hfs Hp].
      set (ew := run_events (waitForServerReady os (health_url config) None) w1) in *.
      clearbody ew.
      unfold run_events, run_result, run_state in *.
      rewrite settle_eq in *.
      destruct (waitForServerReady os (health_url config) None w1) as [rw w2].
      cbn [fst snd] in *. subst rw. destruct b.
      - unfold serverProcess_unref in *. cbn in *. rewrite Hp, Hsp in *. cbn.
        split; [| split; [reflexivity | exact Hfs]].
        rewrite T, <- !app_assoc, drop_app_length. reflexivity.
      - destruct (stopServer os self _) as [[b3 | e3 |] w3]; cbn in Htrue;
          discriminate. }
    destruct Q as (Q1 & Q2 & Q3).
    destruct (waitForServerReady_poll os (health_url config) None w1)
      as (b & R & PR).
    pose proof (poll_existsb _ _ _ _ _ _ _ PR) as Hb.
    rewrite Q2 in R. injection R as <-.
    pose proof (emits_waitForServerReady os (health_url config) None w1) as EW.
    apply extends_run_events in EW. destruct EW as [_ FW].
    rewrite S2, Q1. split; [| split; [| split]].
    - exists (evs ++ run_events (waitForServerReady os (health_url config) None) w1).
      rewrite <- app_assoc. reflexivity.
    - rewrite !replies_app, !existsb_app, <- Hb. rewrite orb_true_r. reflexivity.
    - apply Forall_app. split; [| apply Forall_app; split].
      + eapply Forall_impl; [exact FL |]. sub_kinds.
      + eapply Forall_impl; [exact FW |]. sub_kinds.
      + repeat constructor; event_ok.
    - unfold run_state at 1. rewrite S1. exact Q3. }
  destruct LR as [w1 pre F Hf
                 | w1 pre e F Hf
                 | w1 pre cmd' args' opts' e F Hf
                 | w1 pre cmd' args' opts' c F Hp Hf Hsp
                 | w1 pre cmd' args' opts' c pid' e F Hp Hf
                 | w1 pre cmd' args' opts' c pid' F Hp Hf Hsp];
    destruct SR as [S1 S2].
  - unfold run_result in Htrue. rewrite S1 in Htrue. discriminate.
  - congruence.
  - congruence.
  - destruct (Hready c Hsp S1 S2) as (A & B & C & D).
    exists c, cmd', args', opts'. rewrite Hp.
    split; [| split; [exact A | split; [exact B | split; [exact C |]]]].
    + rewrite S2. apply in_or_app. left. apply in_or_app. right. left. reflexivity.
    + rewrite D. exact Hf.
  - congruence.
  - destruct (Hready c Hsp S1 S2) as (A & B & C & D).
    exists c, cmd', args', opts'. rewrite Hp.
    split; [| split; [exact A | split; [exact B | split; [exact C |]]]].
    + rewrite S2. apply in_or_app. left. apply in_or_app. right. left. reflexivity.
    + rewrite D. exact Hf.
Qed.


End Starting.

Lemma startServer_no_directory_witness :
  run_result (startServer Ex.os_healthy Ex.self Ex2.config_nopath) Ex.fresh = Ret false /\
  run_events (startServer Ex.os_healthy Ex.self Ex2.config_nopath) Ex.fresh
  = [EvDebug "Starting Happy server...";
     EvDebug "Could not find happy-server directory"] /\
  w_files (run_state (startServer Ex.os_healthy Ex.self Ex2.config_nopath) Ex.fresh)
  = w_files Ex.fresh.
Proof.
  apply (startServer_no_directory Ex.os_healthy Ex.self Ex2.config_nopath Ex.fresh).
  vm_compute. reflexivity.
Defined.



(** ** More on stopping *)

Section Stopping.

Variable os : OS.
Variable self : ServerManager.

Lemma stopServer_signals_run
    (w : World) (z : Z) (sig : Signal) (err : option Error) :
  terminating sig = true ->
  In (EvKill z sig err) (run_events (stopServer os self) w) ->
  z <> 0 /\ is_int32 z = true /\
  exists s rest,
    run_events (stopServer os self) w
    = EvReadFile (pidFile self) (inr s) :: EvKill z SIG0 None :: rest /\
    w_files w !! pidFile self = Some s /\
    parseInt (trim s) = Int z.
Proof.
  intros Hsig. unfold_run.
  repeat (step; cbn); run_simpl; intros Hin; in_cases; try discriminate.
  all: repeat match goal with
         | H : negb (_ =? 0) = true |- _ =>
             apply negb_true_iff, Z.eqb_neq in H
         end.
  all: split; [assumption |]; split; [assumption |].
  all: eexists _, _; split; [reflexivity |]; split; [reflexivity | assumption].
Qed.



(** When the process is gone at the probe that follows the grace period,
    [stopServer] sends no [SIGKILL], goes on to delete the PID file and
    answers [true], at least two seconds after it began. *)
Theorem stopServer_graceful_exit (w : World) (z : Z) (e : Error) :
  followed_by (EvSleep 2000) (EvKill z SIG0 (Some e))
              (run_events (stopServer os self) w) ->
  run_result (stopServer os self) w = Ret true /\
  (forall z' err, ~ In (EvKill z' SIGKILL err) (run_events (stopServer os self) w)) /\
  exists pre uerr,
    run_events (stopServer os self) w
    = pre ++ [EvKill z SIGTERM None; EvSleep 2000; EvKill z SIG0 (Some e);
              EvUnlink (pidFile self) uerr] /\
    (uerr = None ->
     w_files (run_state (stopServer os self) w) !! pidFile self = None) /\
    w_now w + 2000 <= w_now (run_state (stopServer os self) w).
Proof.
  unfold_run.
  repeat (step; cbn); run_simpl; intros Hin; in_cases; try discriminate.
  all: repeat match goal with
         | H : _ /\ _ |- _ => destruct H
         end; in_cases; try discriminate.
  all: split; [reflexivity |].
  all: split; [intros z' err' Hk; cbn in Hk; in_cases; discriminate |].
  all: match goal with
       | |- exists pre uerr, ?l = _ /\ _ =>
           exists (firstn (length l - 4) l); cbn; eexists;
           split; [reflexivity |]
       end.
  all: split; [intros; try discriminate; apply lookup_delete_eq | lia].
Qed.

End Stopping.



Lemma stopServer_graceful_exit_witness :
  run_result (stopServer Ex3.os_obedient Ex.self) Ex.recorded = Ret true /\
  (forall z' err,
     ~ In (EvKill z' SIGKILL err)
          (run_events (stopServer Ex3.os_obedient Ex.self) Ex.recorded)) /\
  exists pre uerr,
    run_events (stopServer Ex3.os_obedient Ex.self) Ex.recorded
    = pre ++ [EvKill 4242 SIGTERM None; EvSleep 2000;
              EvKill 4242 SIG0 (Some Ex.ESRCH);
              EvUnlink (pidFile Ex.self) uerr] /\
    (uerr = None ->
     w_files (run_state (stopServer Ex3.os_obedient Ex.self) Ex.recorded)
       !! pidFile Ex.self = None) /\
    w_now Ex.recorded + 2000
    <= w_now (run_state (stopServer Ex3.os_obedient Ex.self) Ex.recorded).
Proof.
  apply (stopServer_graceful_exit Ex3.os_obedient Ex.self Ex.recorded 4242 Ex.ESRCH).
  vm_compute. do 4 right. left. split; reflexivity.
Defined.


(** ** The existence probe and the record *)

Section Record.

Variable os : OS.
Variable self : ServerManager.

(** [isProcessRunning] sends signal 0 and nothing else, answers by
    whether that went through, and makes no system call at all for a
    value that is no process number ([NaN], or outside 32 bits). *)
Theorem isProcessRunning_probe (pid : Number) (w : World) :
  run_result (isProcessRunning os pid) w = Ret (probe_ok os (w_trace w) pid) /\
  run_events (isProcessRunning os pid) w
  = match pid with
    | NaN => []
    | Int z =>
        if is_int32 z then [EvKill z SIG0 (os_kill os (w_trace w) z SIG0)] else []
    end /\
  w_files (run_state (isProcessRunning os pid) w) = w_files w /\
  w_now (run_state (isProcessRunning os pid) w) = w_now w.
Proof.
  unfold run_result, run_events, run_state, isProcessRunning, try_catch, bind,
    process_kill, ret, of_fault, probe_ok.
  destruct pid as [| z]; cbn.
  - rewrite drop_all. auto.
  - destruct (is_int32 z); cbn.
    + destruct (os_kill os (w_trace w) z SIG0); cbn; rewrite drop_app_length; auto.
    + rewrite drop_all. auto.
Qed.

(** When the PID file is not there or cannot be read, [getServerPid]
    answers [null] and does nothing further: no probe, no deletion. *)
Theorem getServerPid_no_record (w : World) (e : Error) :
  In (EvReadFile (pidFile self) (inl e)) (run_events (getServerPid os self) w) ->
  run_result (getServerPid os self) w = Ret None /\
  run_events (getServerPid os self) w = [EvReadFile (pidFile self) (inl e)] /\
  w_files (run_state (getServerPid os self) w) = w_files w /\
  (w_files w !! pidFile self = None \/
   os_read_fault os (w_trace w) (pidFile self) = Some e).
Proof.
  unfold_run.
  repeat (step; cbn); run_simpl; intros Hin; in_cases; try discriminate.
  all: repeat match goal with
         | H : EvReadFile _ _ = EvReadFile _ _ |- _ => injection H as H; subst
         | H : inl _ = inl _ |- _ => injection H as H; subst
         end.
  all: auto 6.
Qed.

Lemma getServerPid_readable (w : World) (s : string) :
  w_files w !! pidFile self = Some s ->
  os_read_fault os (w_trace w) (pidFile self) = None ->
  let alive := probe_ok os (w_trace w ++ [EvReadFile (pidFile self) (inr s)])
                        (parseInt (trim s)) in
  run_result (getServerPid os self) w
  = Ret (if alive then Some (parseInt (trim s)) else None) /\
  (alive = true -> w_files (run_state (getServerPid os self) w) = w_files w) /\
  (alive = false ->
   Forall (fun e => kind e <> KWrite) (run_events (getServerPid os self) w) /\
   exists pre uerr,
     run_events (getServerPid os self) w = pre ++ [EvUnlink (pidFile self) uerr]).
Proof.
  intros Hfile Hread. unfold probe_ok. unfold_run.
  repeat (step; cbn); run_simpl.
  all: split; [reflexivity |].
  all: split; [intros; try discriminate; reflexivity |].
  all: intros; try discriminate.
  all: split; [no_kind |].
  all: match goal with
       | |- exists pre uerr, ?l = _ =>
           exists (removelast l); cbn; eexists; reflexivity
       end.
Qed.



Lemma drop_space_spaces ws l :
  Forall (fun c => is_space c = true) ws -> drop_space (ws ++ l) = drop_space l.
Proof.
  induction 1 as [| c ws Hc _ IH]; [reflexivity |]. cbn. rewrite Hc. exact IH.
Qed.

Lemma drop_space_all ws :
  Forall (fun c => is_space c = true) ws -> drop_space ws = [].
Proof.
  intros H. rewrite <- (app_nil_r ws). apply (drop_space_spaces ws [] H).
Qed.

Lemma trim_padded ws1 s ws2 :
  Forall (fun c => is_space c = true) ws1 ->
  Forall (fun c => is_space c = true) ws2 ->
  Forall (fun c => is_space c = false) (list_ascii_of_string s) ->
  trim (string_of_list_ascii (ws1 ++ list_ascii_of_string s ++ ws2)) = s.
Proof.
  intros H1 H2 Hs. unfold trim.
  rewrite list_ascii_of_string_of_list_ascii, (drop_space_spaces ws1 _ H1).
  rewrite <- (string_of_list_ascii_of_string s) at 2. f_equal.
  destruct (list_ascii_of_string s) as [| c l] eqn:El.
  - cbn [app]. rewrite (drop_space_all ws2 H2). reflexivity.
  - assert (Hc : is_space c = false) by (inversion Hs; assumption).
    cbn [app drop_space]. rewrite Hc.
    change (c :: l ++ ws2) with ((c :: l) ++ ws2).
    rewrite rev_app_distr, drop_space_spaces by (apply List.Forall_rev; exact H2).
    rewrite drop_space_id by (apply List.Forall_rev; exact Hs).
    apply rev_involutive.
Qed.

(** The text [startServer] writes for a PID is read back as that PID by
    [getServerPid], also with white space around it. *)
Theorem getServerPid_reads_back_saved_pid
    (w : World) (pid : Z) (ws1 ws2 : list ascii) :
  Forall (fun c => is_space c = true) ws1 ->
  Forall (fun c => is_space c = true) ws2 ->
  let text := string_of_list_ascii
                (ws1 ++ list_ascii_of_string (num_toString pid) ++ ws2) in
  w_files w !! pidFile self = Some text ->
  os_read_fault os (w_trace w) (pidFile self) = None ->
  run_result (getServerPid os self) w
  = Ret (if probe_ok os (w_trace w ++ [EvReadFile (pidFile self) (inr text)])
                     (Int pid)
         then Some (Int pid) else None).
Proof.
  intros H1 H2 text Hfile Hread.
  destruct (getServerPid_readable w text Hfile Hread) as [R _].
  rewrite R. unfold text.
  rewrite (trim_padded ws1 (num_toString pid) ws2 H1 H2
             (num_toString_chars_no_space pid)).
  pose proof (parseInt_num_toString pid) as P.
  rewrite trim_id in P by apply num_toString_chars_no_space.
  rewrite P. reflexivity.
Qed.

End Record.

Lemma getServerPid_no_record_witness :
  run_result (getServerPid Ex.os_dead Ex.self) Ex.fresh = Ret None /\
  run_events (getServerPid Ex.os_dead Ex.self) Ex.fresh
  = [EvReadFile (pidFile Ex.self) (inl Ex3.ENOENT)] /\
  w_files (run_state (getServerPid Ex.os_dead Ex.self) Ex.fresh) = w_files Ex.fresh.
Proof.
  destruct (getServerPid_no_record Ex.os_dead Ex.self Ex.fresh Ex3.ENOENT)
    as (R & E & F & _).
  - vm_compute. auto.
  - split; [exact R |]. split; [exact E | exact F].
Defined.


Lemma getServerPid_reads_back_saved_pid_witness :
  run_result (getServerPid Ex.os_stubborn Ex.self) Ex3.padded
  = Ret (Some (Int 4242)).
Proof.
  rewrite (getServerPid_reads_back_saved_pid
             Ex.os_stubborn Ex.self Ex3.padded 4242 [" "%char] ["010"%char]).
  - reflexivity.
  - repeat constructor.
  - repeat constructor.
  - reflexivity.
  - reflexivity.
Defined.

(** ** Where the effects go *)

Section Addresses.

Variable os : OS.
Variable self : ServerManager.

#[local] Hint Extern 1 (addressed _ _ _ _) => cbn; intuition auto : core.

Lemma emits_addressed_isServerRunning urls url :
  In (url +:+ "/")%string urls ->
  emits (addressed os self urls) (isServerRunning os (Some url)).
Proof. intros Hin. unfold isServerRunning. cbn [default]. emits_tac. Qed.

Lemma emits_addressed_waitForServerReady urls url timeout :
  In (url +:+ "/")%string urls ->
  emits (addressed os self urls) (waitForServerReady os url timeout).
Proof.
  intros Hin. unfold waitForServerReady.
  assert (H : forall fuel start t,
             emits (addressed os self urls) (waitLoop os fuel url start t)).
  { induction fuel as [| fuel IH]; intros start t; cbn [waitLoop].
    - emits_tac.
    - pose proof (emits_addressed_isServerRunning urls url Hin). emits_tac. }
  emits_tac.
Qed.

Lemma emits_addressed_getServerPid urls :
  emits (addressed os self urls) (getServerPid os self).
Proof. unfold getServerPid, swallow, isProcessRunning. emits_tac. Qed.

Lemma emits_addressed_stopServer urls :
  emits (addressed os self urls) (stopServer os self).
Proof.
  unfold stopServer, swallow, isProcessRunning.
  pose proof (emits_addressed_getServerPid urls). emits_tac.
Qed.

Lemma emits_addressed_startServer urls config :
  In (health_url config +:+ "/")%string urls ->
  emits (addressed os self urls) (startServer os self config).
Proof.
  intros Hin. unfold startServer, findServerPath.
  assert (Hf : forall paths,
             emits (addressed os self urls) (findServerPath_from os paths)).
  { intros paths. apply emits_findServerPath_from. intros msg. exact I. }
  pose proof (emits_addressed_waitForServerReady urls (health_url config) None Hin)
    as Hw.
  pose proof (emits_addressed_stopServer urls) as Hs.
  unfold health_url in Hw.
  emits_tac.
Qed.

Lemma emits_addressed_ensureServerRunning config :
  emits (addressed os self
           [(precheck_url config +:+ "/")%string;
            (health_url (defaultConfig os config) +:+ "/")%string])
        (ensureServerRunning os self config).
Proof.
  unfold ensureServerRunning.
  pose proof (emits_addressed_isServerRunning
                [(precheck_url config +:+ "/")%string;
                 (health_url (defaultConfig os config) +:+ "/")%string]
                (precheck_url config) (or_introl eq_refl)) as Hi.
  pose proof (emits_addressed_startServer
                [(precheck_url config +:+ "/")%string;
                 (health_url (defaultConfig os config) +:+ "/")%string]
                (defaultConfig os config) (or_intror (or_introl eq_refl))) as Hs.
  unfold precheck_url in Hi.
  revert Hs. generalize (startServer os self (defaultConfig os config)).
  intros st Hs. emits_tac.
Qed.


(** [ensureServerRunning] asks two addresses at most, the one derived from
    the caller's port in the check beforehand and the one of the merged
    configuration in the poll; they differ exactly for the port 0. *)
Theorem ensureServerRunning_precheck_and_poll
    (config : option PartialConfig) (w : World) :
  (exists reply rest,
     run_events (ensureServerRunning os self config) w
     = EvFetch (precheck_url config +:+ "/") reply :: rest) /\
  Forall (addressed os self
            [(precheck_url config +:+ "/")%string;
             (health_url (defaultConfig os config) +:+ "/")%string])
         (run_events (ensureServerRunning os self config) w) /\
  (precheck_url config = health_url (defaultConfig os config) <->
   forall c, config = Some c -> p_port c <> Some 0).
Proof.
  split; [| split].
  - pose proof (emits_addressed_ensureServerRunning config w) as E.
    apply extends_run_events in E. destruct E as [T _].
    destruct (isServerRunning_run os (Some (precheck_url config)) w)
      as (_ & _ & _ & _ & rest & Ti & _).
    cbn [default] in Ti.
    assert (X : exists rest',
               w_trace (run_state (ensureServerRunning os self config) w)
               = w_trace w ++ EvFetch (precheck_url config +:+ "/")
                   (os_fetch os (w_trace w) (precheck_url config +:+ "/")) :: rest').
    { unfold ensureServerRunning.
      assert (K : forall (k : bool -> M bool),
                 (forall b, emits (fun _ => True) (k b)) ->
                 exists rest',
                   w_trace (run_state
                              (bind (isServerRunning os (Some (precheck_url config))) k) w)
                   = w_trace w ++ EvFetch (precheck_url config +:+ "/")
                       (os_fetch os (w_trace w) (precheck_url config +:+ "/")) :: rest').
      { intros k Hk. unfold run_state, bind in *.
        destruct (isServerRunning os (Some (precheck_url config)) w) as [[b | e |] w1];
          cbn [snd] in *; eauto.
        destruct (Hk b w1) as (evs & Tk & _). unfold run_state in Tk.
        exists (rest ++ evs). rewrite Tk, Ti, <- app_assoc. reflexivity. }
      apply K. intros b.
      assert (Hs : emits (fun _ => True) (startServer os self (defaultConfig os config))).
      { eapply emits_mono; [| apply (emits_addressed_startServer
                                       [(health_url (defaultConfig os config) +:+ "/")%string])].
        - intros; exact I.
        - left. reflexivity. }
      revert Hs. generalize (startServer os self (defaultConfig os config)).
      intros st Hs. emits_tac. }
    destruct X as [rest' X]. rewrite T in X. apply app_inv_head in X. eauto.
  - apply extends_run_events, emits_addressed_ensureServerRunning.
  - unfold precheck_url, health_url, ensure_port, defaultConfig. cbn [port].
    split.
    + intros E c -> Hp. cbn in E. rewrite Hp in E. vm_compute in E. discriminate E.
    + intros H. destruct config as [c |]; [| reflexivity]. cbn.
      destruct (p_port c) as [p |] eqn:Ep; [| reflexivity]. cbn.
      destruct (Z.eqb_spec p 0) as [-> | _]; [| reflexivity].
      exfalso. apply (H c eq_refl). exact Ep.
Qed.

End Addresses.

(** ** What the answer stands for *)

Section Verdict.

Variable os : OS.
Variable self : ServerManager.








End Verdict.

(** ** The defaults of [ensureServerRunning] *)

Section Defaults.

Variable os : OS.
Variable self : ServerManager.

Lemma emits_ensureServerRunning_spawns config :
  emits (spawns_with os (defaultConfig os config))
        (ensureServerRunning os self config).
Proof.
  unfold ensureServerRunning.
  pose proof (emits_startServer_spawns os self (defaultConfig os config)) as Hs.
  assert (Hi : forall url,
             emits (spawns_with os (defaultConfig os config)) (isServerRunning os url)).
  { intros url. eapply emits_mono; [| apply emits_isServerRunning]. other_kinds. }
  revert Hs. generalize (startServer os self (defaultConfig os config)).
  intros st Hs. emits_tac.
Qed.

(** What the child started by [ensureServerRunning] is given: the caller's
    settings where there are any, the development defaults otherwise, the
    user name in the database address falling back to [postgres] also when
    [USER] is empty. *)
Theorem ensureServerRunning_child_settings
    (config : option PartialConfig) (w : World)
    (cmd : string) (args : list string) (opts : SpawnOptions) (res : SpawnResult) :
  In (EvSpawn cmd args opts res) (run_events (ensureServerRunning os self config) w) ->
  let c := default {| p_databaseUrl := None; p_redisUrl := None;
                      p_masterSecret := None; p_port := None;
                      p_serverPath := None |} config in
  so_env opts !! "PORT"%string = Some (num_toString (default 3005 (p_port c))) /\
  so_env opts !! "REDIS_URL"%string
  = Some (default "redis://localhost:6380"%string (p_redisUrl c)) /\
  so_env opts !! "HANDY_MASTER_SECRET"%string
  = Some (default "development-secret-key-please-change-in-production"%string
                  (p_masterSecret c)) /\
  so_env opts !! "DATABASE_URL"%string
  = Some (match p_databaseUrl c with
          | Some u => u
          | None =>
              let user := match os_env os !! "USER"%string with
                          | Some u => if String.eqb u "" then "postgres"%string else u
                          | None => "postgres"%string
                          end in
              ("postgresql://" +:+ user +:+ "@localhost:5432/happy?schema=public")%string
          end) /\
  (forall k, k ∉ overlaid -> so_env opts !! k = os_env os !! k).
Proof.
  intros Hin c.
  pose proof (emits_ensureServerRunning_spawns config w) as E.
  apply extends_run_events in E. destruct E as [_ F].
  rewrite Forall_forall in F. apply list_elem_of_In in Hin.
  specialize (F _ Hin). cbn in F. destruct F as (_ & _ & Henv & _).
  rewrite Henv.
  destruct (child_env_lookup os (defaultConfig os config))
    as (Hd & Hr & Hm & Hp & _ & Hk).
  split; [exact Hp |]. split; [exact Hr |]. split; [exact Hm |].
  split; [| exact Hk].
  rewrite Hd. unfold defaultConfig. cbn [databaseUrl]. fold c.
  destruct (p_databaseUrl c) as [u |]; [reflexivity |]. cbn [default].
  unfold or_str. destruct (os_env os !! "USER"%string) as [u |]; [| reflexivity].
  destruct u; reflexivity.
Qed.

End Defaults.

Lemma ensureServerRunning_child_settings_witness :
  let opts := spawn_options Ex4.os_anonymous
                (defaultConfig Ex4.os_anonymous Ex4.only_path) "/opt/happy-server" in
  so_env opts !! "PORT"%string = Some "3005"%string /\
  so_env opts !! "DATABASE_URL"%string
  = Some "postgresql://postgres@localhost:5432/happy?schema=public"%string.
Proof.
  intros opts.
  destruct (ensureServerRunning_child_settings
              Ex4.os_anonymous Ex.self Ex4.only_path Ex.fresh
              "yarn" ["start"%string] opts (Spawned Ex.child4242))
    as (P & _ & _ & D & _).
  - vm_compute. do 5 right. left. reflexivity.
  - split; [exact P | exact D].
Defined.

(** ** The log of the child's output *)

Section Log.

Variable self : ServerManager.





End Log.

(** ** Stopping what was started *)

(** After a [startServer] that answered [true], the termination signals of
    [stopServer] go to the child that was started; only when that child had
    no PID do they go to the process of an older record. *)
Theorem stopServer_after_startServer_signals_the_child
    (os : OS) (self : ServerManager) (config : ServerConfig) (w : World)
    (z : Z) (sig : Signal) (err : option Error) :
  run_result (startServer os self config) w = Ret true ->
  terminating sig = true ->
  In (EvKill z sig err)
     (run_events (stopServer os self) (run_state (startServer os self config) w)) ->
  exists child cmd args opts,
    In (EvSpawn cmd args opts (Spawned child))
       (run_events (startServer os self config) w) /\
    (truthy_pid child = Some z \/
     truthy_pid child = None /\
     exists s, w_files w !! pidFile self = Some s /\ parseInt (trim s) = Int z).
Proof.
  intros Htrue Hsig Hin.
  destruct (startServer_true_run os self config w Htrue)
    as (child & cmd & args & opts & Hsp & _ & _ & _ & Hfiles).
  destruct (stopServer_signals_run os self _ z sig err Hsig Hin)
    as (_ & _ & s & rest & _ & Hs & Hz).
  exists child, cmd, args, opts. split; [exact Hsp |].
  destruct (truthy_pid child) as [pid |].
  - left. rewrite Hfiles, lookup_insert_eq in Hs. injection Hs as <-.
    rewrite parseInt_num_toString in Hz. congruence.
  - right. split; [reflexivity |]. exists s. rewrite Hfiles in Hs. auto.
Qed.

Lemma stopServer_after_startServer_signals_the_child_witness :
  exists child cmd args opts,
    In (EvSpawn cmd args opts (Spawned child))
       (run_events (startServer Ex.os_healthy Ex.self Ex.config) Ex.fresh) /\
    (truthy_pid child = Some 4242 \/
     truthy_pid child = None /\
     exists s, w_files Ex.fresh !! pidFile Ex.self = Some s /\
               parseInt (trim s) = Int 4242).
Proof.
  apply (stopServer_after_startServer_signals_the_child
           Ex.os_healthy Ex.self Ex.config Ex.fresh 4242 SIGTERM None).
  - vm_compute. reflexivity.
  - reflexivity.
  - vm_compute. auto 10.
Defined.
